(** * JotForm compliance dashboard: the compliance calculator and the leaderboard ranker

    A shallow embedding of [main.py]: [extract_row], [compute_period_targets]
    and [leaderboard_with_badges], with the parts of Python's [datetime] and
    of pandas they call.

    Conventions of the model.
    - Python integers are [Z]; strings are [string]; [None] is [option].
    - A calendar date is the record [date]; a pandas timestamp at midnight is
      the proleptic Gregorian ordinal of its day ([date.toordinal]).
    - A [float64] is represented by the rational number it stands for:
      division, mean and comparison are exact on [Q], and [round(x, 1)] is
      rounding of the exact value to the nearest tenth, ties to even.
    - A data frame is the list of its rows; a frame built from an empty list
      has no columns, so that selecting a column of it raises [KeyError],
      which is [None] in the [option] monad below. *)

From Stdlib Require Import ZArith QArith Qround Lqa List String Ascii Bool Lia.
From Stdlib Require Import Sorted Permutation DecimalString.
Import ListNotations.

Open Scope string_scope.
Open Scope Z_scope.

(** ** Python's [datetime.date] *)

Record date := mkdate { year : Z; month : Z; day : Z }.

Definition is_leap (y : Z) : bool :=
  (y mod 4 =? 0) && (negb (y mod 100 =? 0) || (y mod 400 =? 0)).

Definition days_before_year (y : Z) : Z :=
  let p := y - 1 in p * 365 + p / 4 - p / 100 + p / 400.

Definition DAYS_BEFORE_MONTH (m : Z) : Z :=
  match m with
  | 1 => 0 | 2 => 31 | 3 => 59 | 4 => 90 | 5 => 120 | 6 => 151
  | 7 => 181 | 8 => 212 | 9 => 243 | 10 => 273 | 11 => 304 | 12 => 334
  | _ => 0
  end.

Definition days_before_month (y m : Z) : Z :=
  DAYS_BEFORE_MONTH m + (if (2 <? m) && is_leap y then 1 else 0).

Definition toordinal (d : date) : Z :=
  days_before_year (year d) + days_before_month (year d) (month d) + day d.

(** Monday is 0, Sunday is 6. *)
Definition weekday_of_ordinal (n : Z) : Z := (n + 6) mod 7.

Definition weekday (d : date) : Z := weekday_of_ordinal (toordinal d).

(** ** pandas ranges *)

(** The generator behind [date_range] and [period_range]: from [cur], by
    [step], while [cur <= last]. *)
Fixpoint generate_range (fuel : nat) (cur last step : Z) : list Z :=
  match fuel with
  | O => []
  | S k =>
      if cur <=? last
      then cur :: generate_range k (cur + step) last step
      else []
  end.

(** [pd.date_range(start, end, freq='D')] *)
Definition date_range_D (start_date end_date : date) : list Z :=
  let s := toordinal start_date in
  let e := toordinal end_date in
  generate_range (Z.to_nat (e - s + 1)) s e 1.

(** [Week(weekday=0).rollforward] and [.rollback] *)
Definition rollforward_MON (n : Z) : Z :=
  if weekday_of_ordinal n =? 0 then n else n + (7 - weekday_of_ordinal n).

Definition rollback_MON (n : Z) : Z :=
  if weekday_of_ordinal n =? 0 then n else n - weekday_of_ordinal n.

(** [pd.date_range(start, end, freq='W-MON')] *)
Definition date_range_W_MON (start_date end_date : date) : list Z :=
  let first := rollforward_MON (toordinal start_date) in
  let last := rollback_MON (toordinal end_date) in
  generate_range (Z.to_nat (last - first + 1)) first last 7.

(** The ordinal of a monthly [Period]: months since January 1970. *)
Definition period_ordinal_M (d : date) : Z :=
  (year d - 1970) * 12 + (month d - 1).

(** [pd.period_range(start, end, freq='M')] *)
Definition period_range_M (start_date end_date : date) : list Z :=
  let s := period_ordinal_M start_date in
  let e := period_ordinal_M end_date in
  generate_range (Z.to_nat (e - s + 1)) s e 1.

(** The [periods] of lines 92-101, for one interval. *)
Definition periods_of (interval : string) (start_date end_date : date) : list Z :=
  if String.eqb interval "daily" then date_range_D start_date end_date
  else if String.eqb interval "weekly" then
    let periods := date_range_W_MON start_date end_date in
    if negb (weekday start_date =? 0)
    then toordinal start_date :: periods
    else periods
  else if String.eqb interval "monthly" then period_range_M start_date end_date
  else [].

(** ** Numbers *)

(** Rounding of an exact value to the nearest integer, ties to even. *)
Definition round_half_even (x : Q) : Z :=
  let f := Qfloor x in
  match Qcompare (x - inject_Z f) (1 # 2) with
  | Lt => f
  | Gt => f + 1
  | Eq => if Z.even f then f else f + 1
  end.

(** [round(x, 1)] *)
Definition round1 (x : Q) : Q := round_half_even (x * 10) # 10.

(** [100 * actual / target if target else 0] *)
Definition percent_of (actual target : Z) : Q :=
  if target =? 0 then 0%Q
  else (inject_Z (100 * actual) / inject_Z target)%Q.

(** [str(n)] for an integer. *)
Definition str_of_int (n : Z) : string := NilZero.string_of_int (Z.to_int n).

(** ** Strings *)

Definition upper_ascii (c : ascii) : ascii :=
  let n := N_of_ascii c in
  if ((97 <=? n) && (n <=? 122))%N then ascii_of_N (n - 32) else c.

Definition lower_ascii (c : ascii) : ascii :=
  let n := N_of_ascii c in
  if ((65 <=? n) && (n <=? 90))%N then ascii_of_N (n + 32) else c.

Fixpoint lower (s : string) : string :=
  match s with
  | EmptyString => EmptyString
  | String c t => String (lower_ascii c) (lower t)
  end.

(** [str.capitalize] *)
Definition capitalize (s : string) : string :=
  match s with
  | EmptyString => EmptyString
  | String c t => String (upper_ascii c) (lower t)
  end.

(** ** Lists: [sorted], [unique], [dropna] *)

Fixpoint insert_sorted {A} (leb : A -> A -> bool) (x : A) (l : list A) : list A :=
  match l with
  | [] => [x]
  | h :: t => if leb x h then x :: l else h :: insert_sorted leb x t
  end.

(** A stable sort. *)
Fixpoint sort_by {A} (leb : A -> A -> bool) (l : list A) : list A :=
  match l with
  | [] => []
  | h :: t => insert_sorted leb h (sort_by leb t)
  end.

(** [sorted] on strings. *)
Definition sorted (l : list string) : list string := sort_by String.leb l.

(** [Series.unique]: the values in order of first appearance; [seen] is the
    hash table of the values met so far. *)
Fixpoint unique_from (seen : list string) (l : list string) : list string :=
  match l with
  | [] => []
  | x :: t =>
      if existsb (String.eqb x) seen then unique_from seen t
      else x :: unique_from (x :: seen) t
  end.

Definition unique (l : list string) : list string := unique_from [] l.

(** [Series.dropna] *)
Fixpoint dropna (l : list (option string)) : list string :=
  match l with
  | [] => []
  | Some x :: t => x :: dropna t
  | None :: t => dropna t
  end.

(** ** Settings *)

Record Rule := mkRule { quota : Z; interval : string }.

Definition FORM_COMPLIANCE : list (string * option Rule) :=
  [ ("AWEstruck Arival/Departure", None);
    ("Daily Huddle", Some (mkRule 3 "daily"));
    ("Valet Driver Assessment", None);
    ("Key Scrub", Some (mkRule 3 "daily"));
    ("Lot Audit", Some (mkRule 3 "daily"));
    ("Overnight Valet", Some (mkRule 1 "daily"));
    ("Parking/Work Area Hazard", Some (mkRule 1 "weekly"));
    ("Site Audit", Some (mkRule 1 "monthly")) ].

Definition FORM_ID_TO_NAME : list (string * string) :=
  [ ("250265807744158", "AWEstruck Arival/Departure");
    ("242047162465151", "Daily Huddle");
    ("230053977061151", "Valet Driver Assessment");
    ("242746988998184", "Key Scrub");
    ("223424048202040", "Lot Audit");
    ("230404704539149", "Overnight Valet");
    ("233176683727163", "Parking/Work Area Hazard");
    ("222195371011142", "Site Audit") ].

Definition LOCATION_FIELD : string := "location".

(** [dict.get(k)]: [None] for a key that is absent. *)
Fixpoint dict_get {V} (d : list (string * V)) (k : string) : option V :=
  match d with
  | [] => None
  | (k', v) :: t => if String.eqb k' k then Some v else dict_get t k
  end.

(** [FORM_COMPLIANCE.get(f)]: an absent form and a form mapped to [None] both
    give [None]. *)
Definition FORM_COMPLIANCE_get (f : string) : option Rule :=
  match dict_get FORM_COMPLIANCE f with
  | Some r => r
  | None => None
  end.

(** ** Errors: a raised exception is [None] *)

Definition bind {A B} (m : option A) (f : A -> option B) : option B :=
  match m with
  | Some a => f a
  | None => None
  end.

Notation "x <- m ;; k" := (bind m (fun x => k))
  (at level 61, m at next level, right associativity).

(** A [for] loop whose body updates a state and may raise. *)
Fixpoint for_each {A S} (body : S -> A -> option S) (l : list A) (s : S) : option S :=
  match l with
  | [] => Some s
  | a :: t => s' <- body s a ;; for_each body t s'
  end.

(** ** The records *)

(** A submission as the JotForm API returns it. *)
Module Api.
Record Answer := mkAnswer { name : string; answer : option string }.
Record Submission :=
  mkSubmission { id : string; created_at : string; answers : list (string * Answer) }.
End Api.

(** A row of [df_raw]. *)
Module Raw.
Record row := mk {
  form_id : string;
  form_name : string;
  submission_id : string;
  submitted_at : string;
  location : option string }.
End Raw.

(** A row of the compliance summary. *)
Module Summary.
Record row := mk {
  form_name : string;
  location : string;
  interval : string;
  periods_in_range : Z;
  quota_per_period : Z;
  target_total : Z;
  actual_total : Z;
  percent_complete : Q;
  status : string }.
End Summary.

(** ** [extract_row] *)

Definition extract_row (sub : Api.Submission) (form_id location_field : string) : Raw.row :=
  let form_name :=
    match dict_get FORM_ID_TO_NAME form_id with
    | Some n => n
    | None => form_id
    end in
  let location :=
    fold_left
      (fun loc kv =>
         let v := snd kv in
         if String.eqb (Api.name v) location_field
         then Some (match Api.answer v with Some a => a | None => "" end)
         else loc)
      (Api.answers sub) None in
  Raw.mk form_id form_name (Api.id sub) (Api.created_at sub) location.

(** ** [compute_period_targets] *)

(** [df[col]]: a frame built from no rows has no columns. *)
Definition getitem {A} (df : list Raw.row) (col : Raw.row -> A) : option (list A) :=
  match df with
  | [] => None
  | _ => Some (map col df)
  end.

(** [(df['form_name'] == form_name) & (df['location'] == loc)] *)
Definition mask_form_loc (fcol : list string) (lcol : list (option string))
    (form_name loc : string) : list bool :=
  map (fun fl =>
         String.eqb (fst fl) form_name
         && match snd fl with Some l => String.eqb l loc | None => false end)
      (combine fcol lcol).

(** [df[mask]] *)
Definition select {A} (df : list A) (mask : list bool) : list A :=
  map fst (filter snd (combine df mask)).

(** The body of the loop of lines 103-119. *)
Definition location_body (df_raw : list Raw.row) (form_name : string) (quota : Z)
    (interval : string) (period_count : Z)
    (summary_rows : list Summary.row) (loc : string) : option (list Summary.row) :=
  fcol <- getitem df_raw Raw.form_name ;;
  lcol <- getitem df_raw Raw.location ;;
  let df_form_loc := select df_raw (mask_form_loc fcol lcol form_name loc) in
  let actual := Z.of_nat (List.length df_form_loc) in
  let target := period_count * quota in
  let percent_complete := percent_of actual target in
  let status :=
    if actual >=? target then "Met"
    else ("Missing " ++ str_of_int (target - actual))%string in
  Some (summary_rows ++
        [ Summary.mk form_name loc (capitalize interval) period_count quota
            target actual (round1 percent_complete) status ])%list.

(** The body of the loop of lines 86-119. *)
Definition form_body (df_raw : list Raw.row) (start_date end_date : date)
    (all_locations : list string)
    (summary_rows : list Summary.row) (form_name : string) : option (list Summary.row) :=
  match FORM_COMPLIANCE_get form_name with
  | None => Some summary_rows
  | Some req =>
      let quota := quota req in
      let interval := interval req in
      let periods := periods_of interval start_date end_date in
      let period_count := Z.of_nat (List.length periods) in
      for_each (location_body df_raw form_name quota interval period_count)
        all_locations summary_rows
  end.

Definition truthy {A} (o : option A) : bool :=
  match o with Some _ => true | None => false end.

Definition compute_period_targets (df_raw : list Raw.row) (start_date end_date : date)
    (selected_forms selected_locations : list string) : option (list Summary.row) :=
  let summary_rows := [] in
  let compliance_forms :=
    filter (fun f => truthy (FORM_COMPLIANCE_get f)) selected_forms in
  all_locations <-
    match selected_locations with
    | _ :: _ => Some selected_locations
    | [] => col <- getitem df_raw Raw.location ;; Some (sorted (unique (dropna col)))
    end ;;
  for_each (form_body df_raw start_date end_date all_locations)
    compliance_forms summary_rows.

(** ** [leaderboard_with_badges] *)

Inductive badge := Gold_Star | Silver_Star | Bronze_Star | Needs_Improvement.

(** A row of the aggregated frame, before [Badge] and [Rank] are added. *)
Module Agg.
Record row := mk {
  location : string;
  forms_tracked : Z;
  total_target : Z;
  total_actual : Z;
  overall_percent : Q }.
End Agg.

Module Leader.
Record row := mk {
  location : string;
  forms_tracked : Z;
  total_target : Z;
  total_actual : Z;
  overall_percent : Q;
  Badge : badge;
  Rank : Z }.
End Leader.

Record LeaderFrame := mkFrame { columns : list string; rows : list Leader.row }.

(** The accumulators of one group: the number of observations and the sums. *)
Record acc := mkacc { nobs : Z; sum_target : Z; sum_actual : Z; sum_percent : Q }.

Definition acc0 : acc := mkacc 0 0 0 0%Q.

Definition acc_add (a : acc) (r : Summary.row) : acc :=
  mkacc (nobs a + 1)
        (sum_target a + Summary.target_total r)
        (sum_actual a + Summary.actual_total r)
        (sum_percent a + Summary.percent_complete r)%Q.

Fixpoint acc_update (groups : list (string * acc)) (r : Summary.row) : list (string * acc) :=
  match groups with
  | [] => []
  | (k, a) :: t =>
      if String.eqb k (Summary.location r) then (k, acc_add a r) :: t
      else (k, a) :: acc_update t r
  end.

Definition finalize (g : string * acc) : Agg.row :=
  let a := snd g in
  Agg.mk (fst g) (nobs a) (sum_target a) (sum_actual a)
    (sum_percent a / inject_Z (nobs a))%Q.

(** [groupby('location').agg(count, sum, sum, mean).reset_index()]: the groups
    are the sorted distinct keys, filled in one pass over the rows. *)
Definition groupby_agg (compliance_summary : list Summary.row) : list Agg.row :=
  let keys := sorted (unique (map Summary.location compliance_summary)) in
  let groups := map (fun k => (k, acc0)) keys in
  map finalize (fold_left acc_update compliance_summary groups).

(** The order of [sort_values(..., ascending=False)] and of
    [rank(ascending=False)]: the larger value first. *)
Definition Qgeb (a b : Q) : bool := Qle_bool b a.

Definition sort_values_desc (leader : list Agg.row) : list Agg.row :=
  sort_by (fun a b => Qgeb (Agg.overall_percent a) (Agg.overall_percent b)) leader.

Definition badge_row (row : Agg.row) : badge :=
  if Qle_bool 100 (Agg.overall_percent row) then Gold_Star
  else if Qle_bool 90 (Agg.overall_percent row) then Silver_Star
  else if Qle_bool 75 (Agg.overall_percent row) then Bronze_Star
  else Needs_Improvement.

(** The position of the first value of [l] that ties with [v]. *)
Fixpoint first_index {A} (leb : A -> A -> bool) (v : A) (l : list A) : nat :=
  match l with
  | [] => O
  | x :: t => if leb x v && leb v x then O else S (first_index leb v t)
  end.

(** [Series.rank(method='min')] in the order [leb]: the values are sorted, and
    each one takes the first position of its group of ties, counted from 1. *)
Definition rank_min {A} (leb : A -> A -> bool) (vals : list A) : list Z :=
  let ordered := sort_by leb vals in
  map (fun v => Z.of_nat (S (first_index leb v ordered))) vals.

Definition add_columns (ab : Agg.row * badge) (rank : Z) : Leader.row :=
  let a := fst ab in
  Leader.mk (Agg.location a) (Agg.forms_tracked a) (Agg.total_target a)
    (Agg.total_actual a) (Agg.overall_percent a) (snd ab) rank.

Definition leaderboard_with_badges (compliance_summary : list Summary.row) : LeaderFrame :=
  match compliance_summary with
  | [] => mkFrame ["location"; "overall_percent"; "Badge"; "Rank"] []
  | _ =>
      let leader := groupby_agg compliance_summary in
      let leader_columns :=
        "location" :: ["forms_tracked"; "total_target"; "total_actual"; "overall_percent"] in
      let leader := sort_values_desc leader in
      let Badge := map badge_row leader in
      let Rank := rank_min Qgeb (map Agg.overall_percent leader) in
      mkFrame (leader_columns ++ ["Badge"] ++ ["Rank"])%list
        (map (fun p => add_columns (fst p) (snd p)) (combine (combine leader Badge) Rank))
  end.

(** ** Definitions used to state the properties *)

(** The submissions of [df_raw] filed for [form_name] at [loc]. *)
Definition matches (form_name loc : string) (r : Raw.row) : bool :=
  String.eqb (Raw.form_name r) form_name
  && match Raw.location r with Some l => String.eqb l loc | None => false end.

Definition count_matching (df_raw : list Raw.row) (form_name loc : string) : Z :=
  Z.of_nat (List.length (filter (matches form_name loc) df_raw)).

(** The locations the calculator iterates over. *)
Definition effective_locations (df_raw : list Raw.row) (selected_locations : list string)
    : list string :=
  match selected_locations with
  | _ :: _ => selected_locations
  | [] => sorted (unique (dropna (map Raw.location df_raw)))
  end.

(** The selected forms that have a rule. *)
Definition compliance_forms (selected_forms : list string) : list string :=
  filter (fun f => truthy (FORM_COMPLIANCE_get f)) selected_forms.

(** The row of one form and one location, from the number of its submissions. *)
Definition summary_row (start_date end_date : date) (form_name : string) (req : Rule)
    (loc : string) (actual : Z) : Summary.row :=
  let period_count :=
    Z.of_nat (List.length (periods_of (interval req) start_date end_date)) in
  let target := period_count * quota req in
  Summary.mk form_name loc (capitalize (interval req)) period_count (quota req)
    target actual (round1 (percent_of actual target))
    (if actual >=? target then "Met"
     else ("Missing " ++ str_of_int (target - actual))%string).

(** The rows of a run that raises nothing, form by form and location by
    location. *)
Definition summary_rows_of (df_raw : list Raw.row) (start_date end_date : date)
    (selected_forms selected_locations : list string) : list Summary.row :=
  flat_map
    (fun f =>
       match FORM_COMPLIANCE_get f with
       | None => []
       | Some req =>
           map (fun loc =>
                  summary_row start_date end_date f req loc (count_matching df_raw f loc))
               (effective_locations df_raw selected_locations)
       end)
    (compliance_forms selected_forms).

(** The days from [s] to [e], both included, and the Mondays among them. *)
Fixpoint days_from (s : Z) (n : nat) : list Z :=
  match n with
  | O => []
  | S k => s :: days_from (s + 1) k
  end.

Definition days_between (s e : Z) : list Z := days_from s (Z.to_nat (e - s + 1)).

Definition is_monday (n : Z) : bool := weekday_of_ordinal n =? 0.

Definition mondays_between (s e : Z) : list Z := filter is_monday (days_between s e).

(** The values of [vals] strictly higher than [v]. *)
Definition higher (vals : list Q) (v : Q) : list Q :=
  filter (fun y => negb (Qgeb v y)) vals.

(** The distinct values of a list of numbers. *)
Fixpoint distinct (vals : list Q) : list Q :=
  match vals with
  | [] => []
  | x :: t => x :: filter (fun y => negb (Qeq_bool y x)) (distinct t)
  end.

(** Competition ranking: one more than the number of higher values. *)
Definition min_rank (vals : list Q) (v : Q) : Z :=
  Z.of_nat (S (List.length (higher vals v))).

(** Dense ranking: one more than the number of distinct higher values. *)
Definition dense_rank (vals : list Q) (v : Q) : Z :=
  Z.of_nat (S (List.length (distinct (higher vals v)))).

Definition Qsum (l : list Q) : Q := fold_right Qplus 0%Q l.


(** The rows of the summary that belong to one location. *)
Definition group_of (compliance_summary : list Summary.row) (loc : string)
    : list Summary.row :=
  filter (fun x => String.eqb (Summary.location x) loc) compliance_summary.

Definition ascending (l : list string) : Prop :=
  Sorted (fun a b => String.leb a b = true) l.

(** The columns of the frame the ranker builds from at least one row. *)
Definition leader_columns : list string :=
  ["location"; "forms_tracked"; "total_target"; "total_actual";
   "overall_percent"; "Badge"; "Rank"].

(** How a row of the summary changes when one submission is appended for
    [form_name] at [loc]. *)
Definition bumped (form_name loc : string) (r r' : Summary.row) : Prop :=
  if String.eqb (Summary.form_name r) form_name && String.eqb (Summary.location r) loc
  then Summary.form_name r' = Summary.form_name r
       /\ Summary.location r' = Summary.location r
       /\ Summary.interval r' = Summary.interval r
       /\ Summary.periods_in_range r' = Summary.periods_in_range r
       /\ Summary.quota_per_period r' = Summary.quota_per_period r
       /\ Summary.target_total r' = Summary.target_total r
       /\ Summary.actual_total r' = Summary.actual_total r + 1
       /\ (Summary.percent_complete r <= Summary.percent_complete r')%Q
  else r' = r.

(** A row of the leaderboard, from its aggregated row and the column [vals]
    of the percentages that are ranked. *)
Definition ranked_row (vals : list Q) (a : Agg.row) : Leader.row :=
  add_columns (a, badge_row a)
    (Z.of_nat (S (first_index Qgeb (Agg.overall_percent a) (sort_by Qgeb vals)))).

(** The aggregated row of the group [g] of the location [k]. *)
Definition agg_row (k : string) (g : list Summary.row) : Agg.row :=
  finalize (k, fold_left acc_add g acc0).

Definition Zsum (l : list Z) : Z := fold_right Z.add 0 l.

(** ** Sample inputs *)

Definition submission (form_name : string) (loc : option string) : Raw.row :=
  Raw.mk "230404704539149" form_name "5001" "2024-01-02 09:30:00" loc.

(** Five, five and four submissions of a form due once a day, over five days. *)
Definition raw_three_locations : list Raw.row :=
  (repeat (submission "Overnight Valet" (Some "A")) 5
   ++ repeat (submission "Overnight Valet" (Some "B")) 5
   ++ repeat (submission "Overnight Valet" (Some "C")) 4)%list.

Definition summary_three_locations : list Summary.row :=
  [ Summary.mk "Overnight Valet" "A" "Daily" 5 1 5 5 (1000 # 10) "Met";
    Summary.mk "Overnight Valet" "B" "Daily" 5 1 5 5 (1000 # 10) "Met";
    Summary.mk "Overnight Valet" "C" "Daily" 5 1 5 4 (800 # 10) "Missing 1" ].


(** A submission whose location question was left unanswered. *)
Definition unanswered : Api.Submission :=
  Api.mkSubmission "5002" "2024-01-02 10:00:00"
    [ ("3", Api.mkAnswer "location" None); ("4", Api.mkAnswer "notes" (Some "ok")) ].

Definition jan (d : Z) : date := mkdate 2024 1 d.

(** One submission of the monthly form, and the row it gives in January. *)
Definition raw_site_audit : list Raw.row := [submission "Site Audit" (Some "A")].

Definition row_site_audit : Summary.row :=
  Summary.mk "Site Audit" "A" "Monthly" 1 1 1 1 (1000 # 10) "Met".

(** ** [get_submissions], [get_all_data] and the two buttons *)

(** How a call that talks to the server ends: with a value, with an
    exception ([raise_for_status], [KeyError]), or still looping when the
    fuel of the model runs out. *)
Inductive outcome (A : Type) : Type :=
| Returned (a : A)
| Raised
| Out_of_fuel.

Arguments Returned {A} a.
Arguments Raised {A}.
Arguments Out_of_fuel {A}.

Definition batch_size : Z := 1000.

(** The loop of lines 33-53. [request limit offset] is the answer of the
    server to the request with these parameters (the form, the key and the
    date filter are the same in every request of one call): [None] when the
    request fails, else the ['content'] of the response. *)
Fixpoint get_submissions_loop (request : Z -> Z -> option (list Api.Submission))
    (fuel : nat) (all_submissions : list Api.Submission) (offset : Z)
    : outcome (list Api.Submission) :=
  match fuel with
  | O => Out_of_fuel
  | S k =>
      match request batch_size offset with
      | None => Raised
      | Some submissions =>
          let all_submissions := (all_submissions ++ submissions)%list in
          if Z.of_nat (List.length submissions) <? batch_size
          then Returned all_submissions
          else get_submissions_loop request k all_submissions (offset + batch_size)
      end
  end.

Definition get_submissions (server : string -> Z -> Z -> option (list Api.Submission))
    (fuel : nat) (form_id : string) : outcome (list Api.Submission) :=
  get_submissions_loop (server form_id) fuel [] 0.

(** [{v: k for k, v in FORM_ID_TO_NAME.items()}]; no name occurs twice in
    [FORM_ID_TO_NAME], so no entry overwrites another. *)
Definition FORM_NAME_TO_ID : list (string * string) :=
  map (fun kv => (snd kv, fst kv)) FORM_ID_TO_NAME.

(** [[FORM_NAME_TO_ID[name] for name in form_names]] *)
Fixpoint form_ids_of (form_names : list string) : option (list string) :=
  match form_names with
  | [] => Some []
  | name :: t =>
      form_id <- dict_get FORM_NAME_TO_ID name ;;
      rest <- form_ids_of t ;;
      Some (form_id :: rest)
  end.

(** [not location_list or row['location'] in location_list] *)
Definition kept (location_list : list string) (row : Raw.row) : bool :=
  match location_list with
  | [] => true
  | _ :: _ =>
      match Raw.location row with
      | Some l => existsb (String.eqb l) location_list
      | None => false
      end
  end.

(** The loop of lines 75-78, for the submissions of one form. *)
Definition append_rows (location_list : list string) (form_id : string)
    (all_rows : list Raw.row) (submissions : list Api.Submission) : list Raw.row :=
  fold_left
    (fun rows sub =>
       let row := extract_row sub form_id LOCATION_FIELD in
       if kept location_list row then (rows ++ [row])%list else rows)
    submissions all_rows.

(** The loop of lines 73-78. *)
Fixpoint get_all_data_loop (server : string -> Z -> Z -> option (list Api.Submission))
    (fuel : nat) (location_list : list string) (form_ids : list string)
    (all_rows : list Raw.row) : outcome (list Raw.row) :=
  match form_ids with
  | [] => Returned all_rows
  | form_id :: t =>
      match get_submissions server fuel form_id with
      | Returned submissions =>
          get_all_data_loop server fuel location_list t
            (append_rows location_list form_id all_rows submissions)
      | Raised => Raised
      | Out_of_fuel => Out_of_fuel
      end
  end.

Definition get_all_data (server : string -> Z -> Z -> option (list Api.Submission))
    (fuel : nat) (form_names location_list : list string) : outcome (list Raw.row) :=
  match form_ids_of form_names with
  | None => Raised
  | Some form_ids => get_all_data_loop server fuel location_list form_ids []
  end.

(** The locations offered after "Load Locations" (lines 169-173), from the
    frame [get_all_data] returned. [blank loc] stands for
    [str(loc).strip() == ""]. *)
Definition load_locations (blank : string -> bool) (df_raw_temp : list Raw.row)
    : list string :=
  match df_raw_temp with
  | [] => []
  | _ :: _ =>
      sorted (filter (fun loc => negb (blank loc))
                (unique (dropna (map Raw.location df_raw_temp))))
  end.

(** What "Run Report" shows (lines 183-197): a warning, or the three tables. *)
Inductive report :=
| No_submissions
| Tables (compliance_summary : list Summary.row) (leaderboard : LeaderFrame)
         (df_raw : list Raw.row).

Definition run_report (server : string -> Z -> Z -> option (list Api.Submission))
    (fuel : nat) (start_date end_date : date)
    (selected_forms selected_locations : list string) : outcome report :=
  match get_all_data server fuel selected_forms selected_locations with
  | Returned df_raw =>
      match df_raw with
      | [] => Returned No_submissions
      | _ :: _ =>
          match compute_period_targets df_raw start_date end_date
                  selected_forms selected_locations with
          | Some compliance_summary =>
              Returned (Tables compliance_summary
                          (leaderboard_with_badges compliance_summary) df_raw)
          | None => Raised
          end
      end
  | Raised => Raised
  | Out_of_fuel => Out_of_fuel
  end.

(** ** More definitions used to state properties *)

(** A server that holds the submissions [data form_id] of each form and
    answers every request with the page asked for. *)
Definition paging_server (data : string -> list Api.Submission)
    (form_id : string) (limit offset : Z) : option (list Api.Submission) :=
  Some (firstn (Z.to_nat limit) (skipn (Z.to_nat offset) (data form_id))).

(** The submissions of a form, when fetching them returns. *)
Definition fetched (server : string -> Z -> Z -> option (list Api.Submission))
    (fuel : nat) (form_id : string) : list Api.Submission :=
  match get_submissions server fuel form_id with
  | Returned l => l
  | _ => []
  end.

(** The rows kept from the submissions [subs] of the forms [form_ids]. *)
Definition rows_of_forms (subs : string -> list Api.Submission)
    (location_list form_ids : list string) : list Raw.row :=
  flat_map
    (fun form_id =>
       filter (kept location_list)
         (map (fun sub => extract_row sub form_id LOCATION_FIELD) (subs form_id)))
    form_ids.

Definition days_in_month (y m : Z) : Z :=
  match m with
  | 2 => if is_leap y then 29 else 28
  | 4 | 6 | 9 | 11 => 30
  | _ => 31
  end.

(** The dates [datetime.date] accepts. *)
Definition valid_date (d : date) : Prop :=
  1 <= year d <= 9999 /\ 1 <= month d <= 12
  /\ 1 <= day d <= days_in_month (year d) (month d).

(** The tiers, from the lowest to the highest. *)
Definition badge_level (b : badge) : Z :=
  match b with
  | Needs_Improvement => 0
  | Bronze_Star => 1
  | Silver_Star => 2
  | Gold_Star => 3
  end.

(** A whitespace test on the first character only, to instantiate [blank]. *)
Definition blank_sample (s : string) : bool :=
  match s with
  | EmptyString => true
  | String c _ => Ascii.eqb c " "%char
  end.

(** A server with 2500 submissions of the monthly form, all at location A. *)
Definition sample_sub : Api.Submission :=
  Api.mkSubmission "5003" "2024-01-03 12:00:00"
    [ ("3", Api.mkAnswer "location" (Some "A")) ].

Definition sample_data (form_id : string) : list Api.Submission :=
  if String.eqb form_id "222195371011142" then repeat sample_sub 2500 else [].

(** * Properties *)

(** ** The calendar *)

Lemma days_from_app (a b : nat) : forall s,
  days_from s (a + b) = (days_from s a ++ days_from (s + Z.of_nat a) b)%list.
Proof.
  induction a as [|a IH]; intro s; simpl.
  - now rewrite Z.add_0_r.
  - rewrite IH. do 3 f_equal. lia.
Qed.

Lemma days_from_bounds (n : nat) : forall s x,
  In x (days_from s n) -> s <= x < s + Z.of_nat n.
Proof.
  induction n as [|n IH]; intros s x; simpl; [tauto|].
  intros [<- | Hin]; [lia|]. apply IH in Hin. lia.
Qed.

Lemma filter_none {A} (p : A -> bool) (l : list A) :
  (forall x, In x l -> p x = false) -> filter p l = [].
Proof.
  induction l as [|a l IH]; simpl; intro H; [reflexivity|].
  rewrite (H a) by now left. apply IH. intros x Hx. apply H. now right.
Qed.

Lemma is_monday_iff (n : Z) : is_monday n = true <-> (n + 6) mod 7 = 0.
Proof. unfold is_monday, weekday_of_ordinal. apply Z.eqb_eq. Qed.

Lemma not_monday_between (f x : Z) :
  is_monday f = true -> f < x < f + 7 -> is_monday x = false.
Proof.
  intros Hf Hx. apply is_monday_iff in Hf.
  destruct (is_monday x) eqn:E; [|reflexivity].
  apply is_monday_iff in E.
  exfalso. revert Hf E. Z.div_mod_to_equations. lia.
Qed.

Lemma generate_range_mondays (fuel : nat) : forall f e,
  is_monday f = true ->
  e - f + 1 <= 7 * Z.of_nat fuel ->
  generate_range fuel f e 7
  = filter is_monday (days_from f (Z.to_nat (e - f + 1))).
Proof.
  induction fuel as [|fuel IH]; intros f e Hf Hfuel.
  - replace (Z.to_nat (e - f + 1)) with O by lia. reflexivity.
  - cbn [generate_range]. destruct (Z.leb_spec f e) as [Hle | Hgt].
    + assert (Hf7 : is_monday (f + 7) = true).
      { apply is_monday_iff. apply is_monday_iff in Hf.
        revert Hf. Z.div_mod_to_equations. lia. }
      rewrite (IH (f + 7) e Hf7) by lia.
      destruct (Z_lt_le_dec (e - f + 1) 7) as [Hshort | Hlong].
      * replace (Z.to_nat (e - (f + 7) + 1)) with O by lia.
        destruct (Z.to_nat (e - f + 1)) as [|n] eqn:En; [lia|].
        cbn [days_from filter]. rewrite Hf. f_equal.
        symmetry. apply filter_none. intros x Hx.
        apply days_from_bounds in Hx.
        apply (not_monday_between f); [assumption | lia].
      * replace (Z.to_nat (e - f + 1))
          with (7 + Z.to_nat (e - (f + 7) + 1))%nat by lia.
        rewrite days_from_app, filter_app.
        replace (f + Z.of_nat 7) with (f + 7) by lia.
        change (days_from f 7) with (f :: days_from (f + 1) 6).
        cbn [filter]. rewrite Hf.
        rewrite (filter_none is_monday (days_from (f + 1) 6)); [reflexivity|].
        intros x Hx. apply days_from_bounds in Hx.
        apply (not_monday_between f); [assumption | lia].
    + replace (Z.to_nat (e - f + 1)) with O by lia. reflexivity.
Qed.

Lemma rollforward_MON_spec (n : Z) :
  is_monday (rollforward_MON n) = true
  /\ n <= rollforward_MON n < n + 7
  /\ (forall x, n <= x < rollforward_MON n -> is_monday x = false).
Proof.
  unfold rollforward_MON.
  destruct (Z.eqb_spec (weekday_of_ordinal n) 0) as [H0 | Hne].
  - split; [now apply Z.eqb_eq | split; [lia | intros; lia]].
  - unfold weekday_of_ordinal in *.
    split; [|split].
    + apply is_monday_iff. revert Hne. Z.div_mod_to_equations. lia.
    + revert Hne. Z.div_mod_to_equations. lia.
    + intros x Hx. destruct (is_monday x) eqn:E; [|reflexivity].
      apply is_monday_iff in E. exfalso.
      revert Hne Hx E. Z.div_mod_to_equations. lia.
Qed.

Lemma rollback_MON_spec (n : Z) :
  is_monday (rollback_MON n) = true
  /\ n - 7 < rollback_MON n <= n.
Proof.
  unfold rollback_MON.
  destruct (Z.eqb_spec (weekday_of_ordinal n) 0) as [H0 | Hne].
  - split; [now apply Z.eqb_eq | lia].
  - unfold weekday_of_ordinal in *. split.
    + apply is_monday_iff. revert Hne. Z.div_mod_to_equations. lia.
    + revert Hne. Z.div_mod_to_equations. lia.
Qed.

(** The weekly range is the list of the Mondays from [start] to [end]. *)
Lemma date_range_W_MON_mondays (start_date end_date : date) :
  date_range_W_MON start_date end_date
  = mondays_between (toordinal start_date) (toordinal end_date).
Proof.
  unfold date_range_W_MON, mondays_between, days_between.
  set (s := toordinal start_date). set (e := toordinal end_date).
  destruct (rollforward_MON_spec s) as (Hf & Hfb & Hbefore).
  destruct (rollback_MON_spec e) as (Hl & Hlb).
  set (first := rollforward_MON s) in *. set (last := rollback_MON e) in *.
  assert (Hmod : first <= e -> first <= last).
  { intro Hfe. apply is_monday_iff in Hf. apply is_monday_iff in Hl.
    revert Hf Hl. Z.div_mod_to_equations. lia. }
  destruct (Z_le_gt_dec first e) as [Hfe | Hfe].
  - specialize (Hmod Hfe).
    rewrite generate_range_mondays by (assumption || lia).
    replace (Z.to_nat (e - s + 1))
      with (Z.to_nat (first - s)
            + (Z.to_nat (last - first + 1) + Z.to_nat (e - last)))%nat by lia.
    rewrite !days_from_app, !filter_app.
    rewrite (filter_none is_monday (days_from s _)).
    2:{ intros x Hx. apply days_from_bounds in Hx. apply Hbefore. lia. }
    rewrite (filter_none is_monday (days_from (_ + _ + _) _)).
    2:{ intros x Hx. apply days_from_bounds in Hx.
        apply (not_monday_between last); [assumption | lia]. }
    cbn [app]. rewrite app_nil_r. do 2 f_equal. lia.
  - replace (Z.to_nat (last - first + 1)) with O by lia. cbn [generate_range].
    symmetry. apply filter_none. intros x Hx.
    apply days_from_bounds in Hx. apply Hbefore. lia.
Qed.

(** C3: for the weekly interval the number of periods is the number of
    Mondays from [start] to [end], both included, plus one exactly when
    [start] is not a Monday; from Wednesday 2024-01-03 to 2024-01-15 the
    Mondays are January 8 and 15, and [periods_in_range] is 3. *)
Theorem weekly_periods_in_range :
  (forall start_date end_date,
     Z.of_nat (List.length (periods_of "weekly" start_date end_date))
     = Z.of_nat (List.length (mondays_between (toordinal start_date)
                                              (toordinal end_date)))
       + (if weekday start_date =? 0 then 0 else 1))
  /\ weekday (jan 3) = 2
  /\ mondays_between (toordinal (jan 3)) (toordinal (jan 15))
     = [toordinal (jan 8); toordinal (jan 15)]
  /\ option_map (map Summary.periods_in_range)
       (compute_period_targets
          [submission "Parking/Work Area Hazard" (Some "A")]
          (jan 3) (jan 15) ["Parking/Work Area Hazard"] [])
     = Some [3].
Proof.
  split; [|repeat split; reflexivity].
  intros start_date end_date.
  unfold periods_of. cbn [String.eqb Ascii.eqb Bool.eqb].
  rewrite date_range_W_MON_mondays.
  destruct (weekday start_date =? 0); cbn [negb List.length]; lia.
Qed.

(** ** Rounding *)

Lemma round_half_even_spec (x : Q) :
  (inject_Z (round_half_even x) - (1 # 2) <= x
   /\ x <= inject_Z (round_half_even x) + (1 # 2))%Q
  /\ (x == inject_Z (round_half_even x) - (1 # 2) -> Z.even (round_half_even x) = true)%Q
  /\ (x == inject_Z (round_half_even x) + (1 # 2) -> Z.even (round_half_even x) = true)%Q.
Proof.
  unfold round_half_even.
  pose proof (Qfloor_le x) as Hlo. pose proof (Qlt_floor x) as Hhi.
  rewrite inject_Z_plus in Hhi. change (inject_Z 1) with 1%Q in Hhi.
  set (f := Qfloor x) in *.
  destruct (Qcompare_spec (x - inject_Z f) (1 # 2)) as [He | Hl | Hg].
  - destruct (Z.even f) eqn:Ev.
    + repeat split; try lra; intros Hc; exact Ev.
    + assert (Ev' : Z.even (f + 1) = true).
      { rewrite Z.add_1_r, Z.even_succ, <- Z.negb_even, Ev. reflexivity. }
      rewrite inject_Z_plus. change (inject_Z 1) with 1%Q.
      repeat split; try lra; intros Hc; exact Ev'.
  - repeat split; try lra; intros Hc; exfalso; lra.
  - rewrite inject_Z_plus. change (inject_Z 1) with 1%Q.
    repeat split; try lra; intros Hc; exfalso; lra.
Qed.

Lemma round_half_even_le (x y : Q) :
  (x <= y)%Q -> round_half_even x <= round_half_even y.
Proof.
  intro Hxy.
  destruct (round_half_even_spec x) as ((Hx1 & Hx2) & Hxe & _).
  destruct (round_half_even_spec y) as ((Hy1 & Hy2) & _ & Hye).
  set (kx := round_half_even x) in *. set (ky := round_half_even y) in *.
  assert (H1 : kx <= ky + 1).
  { rewrite Zle_Qle, inject_Z_plus. change (inject_Z 1) with 1%Q. lra. }
  destruct (Z.eq_dec kx (ky + 1)) as [E | NE]; [|lia].
  exfalso.
  assert (Hq : (inject_Z kx == inject_Z ky + 1)%Q).
  { rewrite E, inject_Z_plus. reflexivity. }
  change (inject_Z 1) with 1%Q in Hq.
  assert (Ex : Z.even kx = true) by (apply Hxe; lra).
  assert (Ey : Z.even ky = true) by (apply Hye; lra).
  rewrite E, Z.add_1_r, Z.even_succ, <- Z.negb_even, Ey in Ex. discriminate.
Qed.

Lemma round1_le (x y : Q) : (x <= y)%Q -> (round1 x <= round1 y)%Q.
Proof.
  intro H. unfold round1, Qle. cbn [Qnum Qden].
  apply Z.mul_le_mono_nonneg_r; [lia|].
  apply round_half_even_le. lra.
Qed.


Lemma percent_of_le (a t : Z) :
  0 <= t -> (percent_of a t <= percent_of (a + 1) t)%Q.
Proof.
  intro Ht. unfold percent_of.
  destruct (Z.eqb_spec t 0) as [E | NE]; [lra|].
  apply Qmult_le_compat_r.
  - rewrite <- Zle_Qle. lia.
  - apply Qinv_le_0_compat. change 0%Q with (inject_Z 0). rewrite <- Zle_Qle. lia.
Qed.

(** ** Sorting and ranking in a total preorder *)

Section Ordered.
Context {A : Type}.
Variable leb : A -> A -> bool.

Let R (a b : A) : Prop := leb a b = true.

Lemma insert_sorted_perm (x : A) (l : list A) :
  Permutation (insert_sorted leb x l) (x :: l).
Proof.
  induction l as [|h t IH]; simpl; [constructor; constructor|].
  destruct (leb x h); [apply Permutation_refl|].
  eapply perm_trans; [apply perm_skip, IH | apply perm_swap].
Qed.

Lemma sort_by_perm (l : list A) : Permutation (sort_by leb l) l.
Proof.
  induction l as [|h t IH]; simpl; [constructor|].
  eapply perm_trans; [apply insert_sorted_perm | now apply perm_skip].
Qed.

Lemma sort_by_In (l : list A) (x : A) : In x (sort_by leb l) <-> In x l.
Proof.
  split; apply Permutation_in;
    [apply sort_by_perm | apply Permutation_sym, sort_by_perm].
Qed.

Lemma filter_length_perm (p : A -> bool) (l l' : list A) :
  Permutation l l' -> List.length (filter p l) = List.length (filter p l').
Proof.
  induction 1 as [|x l l' _ IH|x y l|l l' l'' _ IH1 _ IH2]; simpl.
  - reflexivity.
  - destruct (p x); simpl; congruence.
  - destruct (p x), (p y); reflexivity.
  - congruence.
Qed.

Hypothesis leb_total : forall a b, leb a b = true \/ leb b a = true.

Lemma insert_sorted_Sorted (x : A) (l : list A) :
  Sorted R l -> Sorted R (insert_sorted leb x l).
Proof.
  induction 1 as [|h t Hs IH Hh]; simpl.
  - repeat constructor.
  - destruct (leb x h) eqn:E.
    + constructor; [constructor; assumption | constructor; exact E].
    + constructor; [exact IH|].
      assert (Hhx : R h x) by (destruct (leb_total x h); [congruence | assumption]).
      destruct t as [|h' t']; simpl.
      * constructor; exact Hhx.
      * destruct (leb x h'); constructor; [exact Hhx | now inversion Hh].
Qed.

Lemma sort_by_Sorted (l : list A) : Sorted R (sort_by leb l).
Proof.
  induction l as [|h t IH]; simpl; [constructor | now apply insert_sorted_Sorted].
Qed.

Hypothesis leb_trans : forall a b c, leb a b = true -> leb b c = true -> leb a c = true.

Lemma sort_by_StronglySorted (l : list A) : StronglySorted R (sort_by leb l).
Proof.
  apply Sorted_StronglySorted; [|apply sort_by_Sorted].
  intros a b c. apply leb_trans.
Qed.

(** In a sorted list, the first position of a group of ties is the number
    of the values that come strictly before it. *)
Lemma first_index_sorted (v : A) (l : list A) :
  StronglySorted R l ->
  (exists u, In u l /\ leb u v = true /\ leb v u = true) ->
  first_index leb v l = List.length (filter (fun y => negb (leb v y)) l).
Proof.
  induction 1 as [|x t Hs IH Hall]; intros (u & Hin & Huv & Hvu).
  - destruct Hin.
  - cbn [first_index filter]. rewrite Forall_forall in Hall.
    destruct (leb x v) eqn:Exv; destruct (leb v x) eqn:Evx; cbn [andb negb].
    + rewrite filter_none; [reflexivity|].
      intros y Hy. rewrite (leb_trans v x y Evx (Hall y Hy)). reflexivity.
    + cbn [List.length]. f_equal. apply IH.
      destruct Hin as [-> | Hin]; [congruence|]. now exists u.
    + exfalso. destruct Hin as [-> | Hin]; [congruence|].
      rewrite (leb_trans x u v (Hall u Hin) Huv) in Exv. discriminate.
    + destruct (leb_total x v); congruence.
Qed.

(** The rank [rank_min] gives to a value of the list. *)
Lemma rank_min_value (vals : list A) (v : A) :
  In v vals ->
  Z.of_nat (S (first_index leb v (sort_by leb vals)))
  = Z.of_nat (S (List.length (filter (fun y => negb (leb v y)) vals))).
Proof.
  intro Hin. do 2 f_equal.
  rewrite first_index_sorted.
  - apply filter_length_perm, sort_by_perm.
  - apply sort_by_StronglySorted.
  - exists v. rewrite sort_by_In.
    repeat split; [assumption | | ]; destruct (leb_total v v); assumption.
Qed.
End Ordered.

Lemma Qgeb_total (a b : Q) : Qgeb a b = true \/ Qgeb b a = true.
Proof.
  unfold Qgeb. rewrite !Qle_bool_iff.
  destruct (Qlt_le_dec a b) as [H | H]; [right; apply Qlt_le_weak, H | left; exact H].
Qed.

Lemma Qgeb_trans (a b c : Q) : Qgeb a b = true -> Qgeb b c = true -> Qgeb a c = true.
Proof.
  unfold Qgeb. rewrite !Qle_bool_iff. intros H1 H2. exact (Qle_trans _ _ _ H2 H1).
Qed.

(** ** [unique] and [sorted] *)

Lemma existsb_eqb_In (x : string) (seen : list string) :
  existsb (String.eqb x) seen = true <-> In x seen.
Proof.
  rewrite existsb_exists. split.
  - intros (y & Hy & E). apply String.eqb_eq in E. now subst.
  - intro H. exists x. split; [assumption | apply String.eqb_refl].
Qed.

Lemma unique_from_In (l : list string) : forall seen x,
  In x (unique_from seen l) <-> In x l /\ ~ In x seen.
Proof.
  induction l as [|a l IH]; intros seen x; simpl; [tauto|].
  destruct (existsb (String.eqb a) seen) eqn:E.
  - apply existsb_eqb_In in E. rewrite IH. split.
    + intros [H1 H2]. tauto.
    + intros [[-> | H1] H2]; tauto.
  - assert (Hn : ~ In a seen).
    { intro H. apply existsb_eqb_In in H. congruence. }
    simpl. rewrite IH. simpl. split.
    + intros [-> | [H1 H2]]; [tauto|]. split; [tauto|]. intro; apply H2; now right.
    + intros [[-> | H1] H2]; [now left|].
      destruct (string_dec a x) as [-> | Hne]; [now left|].
      right. split; [assumption|]. intros [H | H]; [congruence | tauto].
Qed.

Lemma unique_from_NoDup (l : list string) : forall seen, NoDup (unique_from seen l).
Proof.
  induction l as [|a l IH]; intro seen; simpl; [constructor|].
  destruct (existsb (String.eqb a) seen); [apply IH|].
  constructor; [|apply IH].
  rewrite unique_from_In. simpl. tauto.
Qed.

Lemma unique_from_snoc (l : list string) : forall seen x,
  In x seen \/ In x l -> unique_from seen (l ++ [x]) = unique_from seen l.
Proof.
  induction l as [|a l IH]; intros seen x H; simpl.
  - destruct H as [H | []]. apply existsb_eqb_In in H. now rewrite H.
  - destruct (existsb (String.eqb a) seen) eqn:E.
    + apply IH. destruct H as [H | [<- | H]]; auto.
      left. now apply existsb_eqb_In.
    + f_equal. apply IH. simpl. destruct H as [H | [<- | H]]; auto.
Qed.

Lemma dropna_In (l : list (option string)) (x : string) :
  In x (dropna l) <-> In (Some x) l.
Proof.
  induction l as [|[a|] l IH]; simpl; [tauto| |].
  - rewrite IH. split; intros [H | H]; auto; left; congruence.
  - rewrite IH. split; [auto | intros [H | H]; [discriminate | assumption]].
Qed.

Lemma dropna_app (l l' : list (option string)) :
  dropna (l ++ l') = (dropna l ++ dropna l')%list.
Proof.
  induction l as [|[a|] l IH]; simpl; [reflexivity | now rewrite IH | assumption].
Qed.

Lemma sorted_In (l : list string) (x : string) : In x (sorted l) <-> In x l.
Proof. apply sort_by_In. Qed.

Lemma sorted_unique_NoDup (l : list string) : NoDup (sorted (unique l)).
Proof.
  apply (Permutation_NoDup (l := unique l)).
  - apply Permutation_sym, sort_by_perm.
  - apply unique_from_NoDup.
Qed.

Lemma sorted_unique_In (l : list string) (x : string) :
  In x (sorted (unique l)) <-> In x l.
Proof.
  rewrite sorted_In. unfold unique. rewrite unique_from_In. simpl. tauto.
Qed.

Lemma sorted_ascending (l : list string) : ascending (sorted l).
Proof. apply sort_by_Sorted. apply String.leb_total. Qed.

(** ** The calculator, when nothing is raised *)

Lemma mask_form_loc_map (df : list Raw.row) (form_name loc : string) :
  mask_form_loc (map Raw.form_name df) (map Raw.location df) form_name loc
  = map (matches form_name loc) df.
Proof.
  unfold mask_form_loc. induction df as [|r df IH]; simpl; [reflexivity|].
  now rewrite IH.
Qed.

Lemma select_map {A} (p : A -> bool) (df : list A) :
  select df (map p df) = filter p df.
Proof.
  unfold select. induction df as [|r df IH]; simpl; [reflexivity|].
  destruct (p r); simpl; now rewrite IH.
Qed.

Lemma for_each_map {A B} (body : list B -> A -> option (list B)) (g : A -> list B)
    (l : list A) :
  (forall s a, In a l -> body s a = Some (s ++ g a)%list) ->
  forall s, for_each body l s = Some (s ++ flat_map g l)%list.
Proof.
  induction l as [|a l IH]; intros H s; simpl.
  - now rewrite app_nil_r.
  - rewrite (H s a) by now left. simpl.
    rewrite IH by (intros; apply H; now right).
    now rewrite app_assoc.
Qed.

Lemma flat_map_singleton {A B} (g : A -> B) (l : list A) :
  flat_map (fun a => [g a]) l = map g l.
Proof. induction l as [|a l IH]; simpl; [reflexivity | now rewrite IH]. Qed.

Lemma location_body_some (df_raw : list Raw.row) (form_name : string) (req : Rule)
    (start_date end_date : date) (summary_rows : list Summary.row) (loc : string) :
  df_raw <> [] ->
  location_body df_raw form_name (quota req) (interval req)
    (Z.of_nat (List.length (periods_of (interval req) start_date end_date)))
    summary_rows loc
  = Some (summary_rows
          ++ [summary_row start_date end_date form_name req loc
                (count_matching df_raw form_name loc)])%list.
Proof.
  intro Hne. unfold location_body, getitem.
  destruct df_raw as [|r0 rest]; [congruence|].
  cbn [bind]. rewrite mask_form_loc_map, select_map. reflexivity.
Qed.

Lemma form_body_some (df_raw : list Raw.row) (start_date end_date : date)
    (all_locations : list string) (summary_rows : list Summary.row) (f : string) :
  df_raw <> [] ->
  form_body df_raw start_date end_date all_locations summary_rows f
  = Some (summary_rows
          ++ match FORM_COMPLIANCE_get f with
             | None => []
             | Some req =>
                 map (fun loc => summary_row start_date end_date f req loc
                                   (count_matching df_raw f loc))
                     all_locations
             end)%list.
Proof.
  intro Hne. unfold form_body.
  destruct (FORM_COMPLIANCE_get f) as [req|]; [|now rewrite app_nil_r].
  rewrite (for_each_map _
             (fun loc => [summary_row start_date end_date f req loc
                            (count_matching df_raw f loc)])).
  - now rewrite flat_map_singleton.
  - intros s a _. now apply location_body_some.
Qed.

(** A run on a frame with at least one row raises nothing and returns the
    rows of [summary_rows_of]. *)
Lemma compute_period_targets_some (df_raw : list Raw.row) (start_date end_date : date)
    (selected_forms selected_locations : list string) :
  df_raw <> [] ->
  compute_period_targets df_raw start_date end_date selected_forms selected_locations
  = Some (summary_rows_of df_raw start_date end_date selected_forms selected_locations).
Proof.
  intro Hne. unfold compute_period_targets, summary_rows_of.
  assert (Hloc :
    match selected_locations with
    | _ :: _ => Some selected_locations
    | [] => col <- getitem df_raw Raw.location ;; Some (sorted (unique (dropna col)))
    end = Some (effective_locations df_raw selected_locations)).
  { destruct selected_locations; [|reflexivity].
    destruct df_raw; [congruence | reflexivity]. }
  rewrite Hloc. cbn [bind].
  rewrite (for_each_map _ (fun f =>
     match FORM_COMPLIANCE_get f with
     | None => []
     | Some req =>
         map (fun loc => summary_row start_date end_date f req loc
                           (count_matching df_raw f loc))
             (effective_locations df_raw selected_locations)
     end)).
  - reflexivity.
  - intros s a _. now apply form_body_some.
Qed.

Lemma form_loop_empty (start_date end_date : date) (l : string) (t : list string)
    (forms : list string) : forall s out,
  for_each (form_body [] start_date end_date (l :: t)) forms s = Some out -> out = s.
Proof.
  induction forms as [|f forms IH]; intros s out; simpl.
  - congruence.
  - unfold form_body at 1. destruct (FORM_COMPLIANCE_get f); simpl.
    + discriminate.
    + apply IH.
Qed.

(** A run on a frame without rows either raises [KeyError] or returns no row. *)
Lemma compute_period_targets_empty (start_date end_date : date)
    (selected_forms selected_locations : list string) (out : list Summary.row) :
  compute_period_targets [] start_date end_date selected_forms selected_locations
  = Some out -> out = [].
Proof.
  unfold compute_period_targets.
  destruct selected_locations as [|l t]; [discriminate|]. cbn [bind].
  apply form_loop_empty.
Qed.

Lemma in_summary_rows_of (df_raw : list Raw.row) (start_date end_date : date)
    (selected_forms selected_locations : list string) (r : Summary.row) :
  In r (summary_rows_of df_raw start_date end_date selected_forms selected_locations)
  <-> exists f req loc,
        In f selected_forms
        /\ FORM_COMPLIANCE_get f = Some req
        /\ In loc (effective_locations df_raw selected_locations)
        /\ r = summary_row start_date end_date f req loc (count_matching df_raw f loc).
Proof.
  unfold summary_rows_of, compliance_forms. rewrite in_flat_map. split.
  - intros (f & Hf & Hr). apply filter_In in Hf. destruct Hf as [Hf _].
    destruct (FORM_COMPLIANCE_get f) as [req|] eqn:E; [|destruct Hr].
    apply in_map_iff in Hr. destruct Hr as (loc & <- & Hloc).
    exists f, req, loc. auto.
  - intros (f & req & loc & Hf & E & Hloc & ->).
    exists f. split.
    + apply filter_In. split; [assumption | now rewrite E].
    + rewrite E. apply in_map_iff. exists loc. auto.
Qed.

Lemma FORM_COMPLIANCE_quota_pos (f : string) (req : Rule) :
  FORM_COMPLIANCE_get f = Some req -> 0 < quota req.
Proof.
  unfold FORM_COMPLIANCE_get, FORM_COMPLIANCE. cbn [dict_get].
  repeat match goal with
         | |- context [String.eqb ?a f] => destruct (String.eqb a f)
         end;
    intro H; inversion H; cbn; lia.
Qed.

(** ** Properties of the calculator *)



Lemma summary_keys (df_raw : list Raw.row) (start_date end_date : date)
    (selected_forms selected_locations : list string) :
  map (fun r => (Summary.form_name r, Summary.location r))
    (summary_rows_of df_raw start_date end_date selected_forms selected_locations)
  = list_prod (compliance_forms selected_forms)
      (effective_locations df_raw selected_locations).
Proof.
  unfold summary_rows_of, compliance_forms.
  induction selected_forms as [|f forms IH]; simpl; [reflexivity|].
  destruct (FORM_COMPLIANCE_get f) as [req|] eqn:E; simpl; [|exact IH].
  rewrite E, map_app, IH. f_equal.
  rewrite map_map. reflexivity.
Qed.

(** C8, amended: the rows are grouped by form, in the order in which the
    forms that have a rule were selected, and within a form they follow the
    list of locations: the selected ones in the order given, or else the
    observed ones in ascending order. *)
Theorem rows_follow_forms_then_locations (df_raw : list Raw.row)
    (start_date end_date : date) (selected_forms selected_locations : list string) :
  df_raw <> [] ->
  exists out,
    compute_period_targets df_raw start_date end_date selected_forms selected_locations
    = Some out
    /\ map (fun r => (Summary.form_name r, Summary.location r)) out
       = list_prod (compliance_forms selected_forms)
           (effective_locations df_raw selected_locations)
    /\ (selected_locations <> [] ->
        effective_locations df_raw selected_locations = selected_locations)
    /\ (selected_locations = [] ->
        ascending (effective_locations df_raw selected_locations)).
Proof.
  intro Hne. eexists. split; [now apply compute_period_targets_some|].
  split; [apply summary_keys|]. split.
  - destruct selected_locations; [congruence | reflexivity].
  - intros ->. apply sorted_ascending.
Qed.

Lemma rows_follow_forms_then_locations_witness :
  [submission "Site Audit" (Some "B"); submission "Site Audit" (Some "A")] <> []
  /\ exists out,
       compute_period_targets
         [submission "Site Audit" (Some "B"); submission "Site Audit" (Some "A")]
         (jan 1) (jan 5) ["Site Audit"; "Daily Huddle"] [] = Some out
       /\ map (fun r => (Summary.form_name r, Summary.location r)) out
          = list_prod (compliance_forms ["Site Audit"; "Daily Huddle"])
              (effective_locations
                 [submission "Site Audit" (Some "B"); submission "Site Audit" (Some "A")]
                 [])
       /\ (@nil string <> [] ->
           effective_locations
             [submission "Site Audit" (Some "B"); submission "Site Audit" (Some "A")] []
           = [])
       /\ (@nil string = [] ->
           ascending
             (effective_locations
                [submission "Site Audit" (Some "B"); submission "Site Audit" (Some "A")]
                [])).
Proof.
  split; [discriminate|].
  apply (rows_follow_forms_then_locations
           [submission "Site Audit" (Some "B"); submission "Site Audit" (Some "A")]).
  discriminate.
Defined.

(** C8 as stated fails: with the locations B, A selected in that order, the
    rows of a form come out as B then A, which is not ascending. *)
Lemma selected_locations_not_sorted :
  option_map (map Summary.location)
    (compute_period_targets
       [submission "Site Audit" (Some "A"); submission "Site Audit" (Some "B")]
       (jan 1) (jan 5) ["Site Audit"] ["B"; "A"])
  = Some ["B"; "A"]
  /\ ~ ascending ["B"; "A"].
Proof.
  split; [reflexivity|].
  intro H. inversion H as [|a l _ Hd]. inversion Hd as [|b l' Hba]. discriminate.
Qed.

(** What the calculator reads of a submission. *)
Lemma count_matching_fields (raw1 : list Raw.row) : forall raw2 f loc,
  map (fun r => (Raw.form_name r, Raw.location r)) raw1
  = map (fun r => (Raw.form_name r, Raw.location r)) raw2 ->
  count_matching raw1 f loc = count_matching raw2 f loc.
Proof.
  unfold count_matching.
  induction raw1 as [|r1 raw1 IH]; intros [|r2 raw2] f loc H;
    try discriminate; [reflexivity|].
  simpl in H. injection H as Hf Hl Hrest.
  specialize (IH raw2 f loc Hrest).
  assert (Hm : matches f loc r1 = matches f loc r2).
  { unfold matches. now rewrite Hf, Hl. }
  cbn [filter]. rewrite Hm.
  destruct (matches f loc r2); cbn [List.length]; lia.
Qed.

Lemma locations_fields (raw1 raw2 : list Raw.row) :
  map (fun r => (Raw.form_name r, Raw.location r)) raw1
  = map (fun r => (Raw.form_name r, Raw.location r)) raw2 ->
  map Raw.location raw1 = map Raw.location raw2.
Proof.
  intro H. apply (f_equal (map snd)) in H. rewrite !map_map in H. exact H.
Qed.

(** C9: two frames that agree row for row on [form_name] and [location] give
    the same result, whatever their other fields. *)
Theorem output_depends_on_form_and_location (raw1 raw2 : list Raw.row)
    (start_date end_date : date) (selected_forms selected_locations : list string) :
  map (fun r => (Raw.form_name r, Raw.location r)) raw1
  = map (fun r => (Raw.form_name r, Raw.location r)) raw2 ->
  compute_period_targets raw1 start_date end_date selected_forms selected_locations
  = compute_period_targets raw2 start_date end_date selected_forms selected_locations.
Proof.
  intro H.
  destruct raw1 as [|a1 t1], raw2 as [|a2 t2]; try discriminate; [reflexivity|].
  rewrite !compute_period_targets_some by discriminate.
  f_equal. unfold summary_rows_of, effective_locations.
  rewrite (locations_fields _ _ H).
  apply flat_map_ext. intro f.
  destruct (FORM_COMPLIANCE_get f) as [req|]; [|reflexivity].
  apply map_ext. intro loc.
  now rewrite (count_matching_fields _ _ f loc H).
Qed.

Lemma output_depends_on_form_and_location_witness :
  map (fun r => (Raw.form_name r, Raw.location r))
    [Raw.mk "222195371011142" "Site Audit" "1" "2024-01-02 08:00:00" (Some "A")]
  = map (fun r => (Raw.form_name r, Raw.location r))
      [Raw.mk "0" "Site Audit" "77" "2023-12-31 23:59:59" (Some "A")]
  /\ compute_period_targets
       [Raw.mk "222195371011142" "Site Audit" "1" "2024-01-02 08:00:00" (Some "A")]
       (jan 1) (jan 5) ["Site Audit"] []
     = compute_period_targets
         [Raw.mk "0" "Site Audit" "77" "2023-12-31 23:59:59" (Some "A")]
         (jan 1) (jan 5) ["Site Audit"] [].
Proof.
  split; [reflexivity|].
  apply output_depends_on_form_and_location. reflexivity.
Defined.

Lemma Forall2_map_same {A B} (R : B -> B -> Prop) (f g : A -> B) (l : list A) :
  (forall x, In x l -> R (f x) (g x)) -> Forall2 R (map f l) (map g l).
Proof.
  induction l as [|a l IH]; intro H; simpl; constructor.
  - apply H. now left.
  - apply IH. intros x Hx. apply H. now right.
Qed.

Lemma Forall2_flat_map_same {A B} (R : B -> B -> Prop) (f g : A -> list B) (l : list A) :
  (forall x, In x l -> Forall2 R (f x) (g x)) ->
  Forall2 R (flat_map f l) (flat_map g l).
Proof.
  induction l as [|a l IH]; intro H; simpl; [constructor|].
  apply Forall2_app.
  - apply H. now left.
  - apply IH. intros x Hx. apply H. now right.
Qed.

Lemma count_matching_snoc (df_raw : list Raw.row) (extra : Raw.row) (f loc : string) :
  count_matching (df_raw ++ [extra]) f loc
  = count_matching df_raw f loc + (if matches f loc extra then 1 else 0).
Proof.
  unfold count_matching. rewrite filter_app, length_app. simpl.
  destruct (matches f loc extra); simpl; lia.
Qed.

Lemma effective_locations_snoc (df_raw : list Raw.row) (extra : Raw.row)
    (selected_locations : list string) (loc : string) :
  Raw.location extra = Some loc ->
  In loc (effective_locations df_raw selected_locations) ->
  effective_locations (df_raw ++ [extra]) selected_locations
  = effective_locations df_raw selected_locations.
Proof.
  intros Hl Hin. unfold effective_locations in *.
  destruct selected_locations; [|reflexivity].
  apply -> sorted_unique_In in Hin.
  rewrite map_app, dropna_app. cbn [map dropna]. rewrite Hl.
  unfold unique. rewrite unique_from_snoc; [reflexivity | now right].
Qed.

Lemma summary_row_bumped (start_date end_date : date) (f : string) (req : Rule)
    (loc : string) (c : Z) (f0 l0 : string) :
  FORM_COMPLIANCE_get f = Some req ->
  bumped f0 l0
    (summary_row start_date end_date f req loc c)
    (summary_row start_date end_date f req loc
       (c + (if String.eqb f0 f && String.eqb l0 loc then 1 else 0))).
Proof.
  intro Hreq. unfold bumped. cbn [summary_row Summary.form_name Summary.location].
  rewrite (String.eqb_sym f f0), (String.eqb_sym loc l0).
  destruct (String.eqb f0 f && String.eqb l0 loc).
  - unfold summary_row. cbn. repeat split.
    apply round1_le, percent_of_le.
    apply FORM_COMPLIANCE_quota_pos in Hreq. nia.
  - now rewrite Z.add_0_r.
Qed.

(** C10: one more submission for the form and the location of a row of the
    summary adds 1 to [actual_total] in the rows of that form and location,
    does not lower their [percent_complete], keeps their targets, and leaves
    every other row as it was. *)
Theorem appended_submission_bumps_its_row (df_raw : list Raw.row)
    (start_date end_date : date) (selected_forms selected_locations : list string)
    (out : list Summary.row) (r0 : Summary.row) (extra : Raw.row) :
  compute_period_targets df_raw start_date end_date selected_forms selected_locations
  = Some out ->
  In r0 out ->
  Raw.form_name extra = Summary.form_name r0 ->
  Raw.location extra = Some (Summary.location r0) ->
  exists out',
    compute_period_targets (df_raw ++ [extra]) start_date end_date
      selected_forms selected_locations = Some out'
    /\ Forall2 (bumped (Summary.form_name r0) (Summary.location r0)) out out'.
Proof.
  intros Hrun Hin Hf Hl.
  assert (Hne : df_raw <> []).
  { intros ->. apply compute_period_targets_empty in Hrun. now subst. }
  rewrite compute_period_targets_some in Hrun by assumption.
  injection Hrun as <-.
  eexists. split.
  { apply compute_period_targets_some. now destruct df_raw. }
  pose proof Hin as Hin'. apply in_summary_rows_of in Hin'.
  destruct Hin' as (f0 & req0 & l0 & _ & _ & Hl0 & ->).
  cbn [summary_row Summary.form_name Summary.location] in *.
  unfold summary_rows_of.
  rewrite (effective_locations_snoc df_raw extra selected_locations l0 Hl Hl0).
  apply Forall2_flat_map_same. intros f _.
  destruct (FORM_COMPLIANCE_get f) as [req|] eqn:E; [|constructor].
  apply Forall2_map_same. intros loc _.
  rewrite count_matching_snoc.
  unfold matches. rewrite Hf, Hl.
  now apply summary_row_bumped.
Qed.

Lemma appended_submission_bumps_its_row_witness :
  compute_period_targets raw_site_audit (jan 1) (jan 5) ["Site Audit"] []
  = Some [row_site_audit]
  /\ exists out',
       compute_period_targets (raw_site_audit ++ [submission "Site Audit" (Some "A")])
         (jan 1) (jan 5) ["Site Audit"] [] = Some out'
       /\ Forall2 (bumped "Site Audit" "A") [row_site_audit] out'.
Proof.
  split; [reflexivity|].
  apply (appended_submission_bumps_its_row raw_site_audit (jan 1) (jan 5)
           ["Site Audit"] [] [row_site_audit] row_site_audit
           (submission "Site Audit" (Some "A")));
    [reflexivity | now left | reflexivity | reflexivity].
Defined.




(** ** The ranker *)

Lemma combine_map_map {A B C} (g : A -> B) (h : A -> C) (l : list A) :
  combine (combine l (map g l)) (map h l) = map (fun a => ((a, g a), h a)) l.
Proof. induction l as [|a l IH]; simpl; [reflexivity | now rewrite IH]. Qed.

Lemma leaderboard_rows (compliance_summary : list Summary.row) :
  rows (leaderboard_with_badges compliance_summary)
  = map (ranked_row (map Agg.overall_percent
                       (sort_values_desc (groupby_agg compliance_summary))))
        (sort_values_desc (groupby_agg compliance_summary)).
Proof.
  destruct compliance_summary as [|r0 cs]; [reflexivity|].
  unfold leaderboard_with_badges. cbn [rows].
  unfold rank_min. rewrite map_map, combine_map_map, map_map. reflexivity.
Qed.

Lemma ranked_row_overall (vals : list Q) (l : list Agg.row) :
  map Leader.overall_percent (map (ranked_row vals) l) = map Agg.overall_percent l.
Proof. rewrite map_map. reflexivity. Qed.

Lemma higher_Qeq (vals : list Q) (v v' : Q) :
  (v == v')%Q -> higher vals v = higher vals v'.
Proof.
  intro E. unfold higher, Qgeb. apply filter_ext. intro y. now rewrite E.
Qed.

(** The rank of a row of the leaderboard is its competition rank. *)
Lemma rank_is_min_rank (compliance_summary : list Summary.row) (r : Leader.row) :
  In r (rows (leaderboard_with_badges compliance_summary)) ->
  Leader.Rank r
  = min_rank (map Leader.overall_percent
                (rows (leaderboard_with_badges compliance_summary)))
      (Leader.overall_percent r).
Proof.
  rewrite leaderboard_rows, ranked_row_overall.
  set (leader := sort_values_desc (groupby_agg compliance_summary)).
  intro Hin. apply in_map_iff in Hin. destruct Hin as (a & <- & Ha).
  unfold ranked_row, add_columns, min_rank, higher.
  cbn [Leader.Rank Leader.overall_percent fst snd].
  apply (rank_min_value Qgeb Qgeb_total Qgeb_trans).
  now apply in_map.
Qed.

(** C1, amended: a row's rank is one more than the number of rows with a
    strictly higher [overall_percent]; rows with equal percentages share
    their rank, and a row that no other exceeds has rank 1. *)
Theorem rank_counts_higher_rows (compliance_summary : list Summary.row) (r : Leader.row) :
  In r (rows (leaderboard_with_badges compliance_summary)) ->
  Leader.Rank r
  = min_rank (map Leader.overall_percent
                (rows (leaderboard_with_badges compliance_summary)))
      (Leader.overall_percent r)
  /\ (forall r',
        In r' (rows (leaderboard_with_badges compliance_summary)) ->
        (Leader.overall_percent r' == Leader.overall_percent r)%Q ->
        Leader.Rank r' = Leader.Rank r)
  /\ ((forall r',
         In r' (rows (leaderboard_with_badges compliance_summary)) ->
         (Leader.overall_percent r' <= Leader.overall_percent r)%Q) ->
      Leader.Rank r = 1).
Proof.
  intro Hin. split; [now apply rank_is_min_rank|]. split.
  - intros r' Hin' E.
    rewrite (rank_is_min_rank _ _ Hin), (rank_is_min_rank _ _ Hin').
    unfold min_rank. now rewrite (higher_Qeq _ _ _ E).
  - intro Hmax. rewrite (rank_is_min_rank _ _ Hin).
    unfold min_rank, higher. rewrite filter_none; [reflexivity|].
    intros y Hy. apply in_map_iff in Hy. destruct Hy as (r' & <- & Hr').
    unfold Qgeb. apply negb_false_iff, Qle_bool_iff. now apply Hmax.
Qed.

Lemma rank_counts_higher_rows_witness :
  In (Leader.mk "C" 1 5 4 (800 # 10) Bronze_Star 3)
     (rows (leaderboard_with_badges summary_three_locations))
  /\ Leader.Rank (Leader.mk "C" 1 5 4 (800 # 10) Bronze_Star 3)
     = min_rank (map Leader.overall_percent
                   (rows (leaderboard_with_badges summary_three_locations)))
         (800 # 10).
Proof.
  split; [do 2 right; left; reflexivity|].
  refine (proj1 (rank_counts_higher_rows summary_three_locations
                   (Leader.mk "C" 1 5 4 (800 # 10) Bronze_Star 3) _)).
  do 2 right; left; reflexivity.
Defined.

(** C1 as stated fails: after two locations at 100 the location at 80 has
    rank 3, where the dense rank is 2. *)
Lemma rank_is_not_dense :
  ~ (forall r,
       In r (rows (leaderboard_with_badges summary_three_locations)) ->
       Leader.Rank r
       = dense_rank (map Leader.overall_percent
                       (rows (leaderboard_with_badges summary_three_locations)))
           (Leader.overall_percent r)).
Proof.
  intro H.
  specialize (H (Leader.mk "C" 1 5 4 (800 # 10) Bronze_Star 3)).
  assert (Hin : In (Leader.mk "C" 1 5 4 (800 # 10) Bronze_Star 3)
                   (rows (leaderboard_with_badges summary_three_locations)))
    by (do 2 right; left; reflexivity).
  specialize (H Hin). vm_compute in H. discriminate.
Qed.

(** The sample summary is what the calculator returns on the sample frame. *)
Lemma summary_three_locations_computed :
  compute_period_targets raw_three_locations (jan 1) (jan 5) ["Overnight Valet"] []
  = Some summary_three_locations.
Proof. reflexivity. Qed.





(** ** The groups of the ranker *)

Lemma acc_update_keys (groups : list (string * acc)) (r : Summary.row) :
  map fst (acc_update groups r) = map fst groups.
Proof.
  induction groups as [|[k a] t IH]; simpl; [reflexivity|].
  destruct (String.eqb k (Summary.location r)); simpl; [reflexivity | now rewrite IH].
Qed.

Lemma acc_update_spec (groups : list (string * acc)) (r : Summary.row) :
  NoDup (map fst groups) ->
  acc_update groups r
  = map (fun g => if String.eqb (fst g) (Summary.location r)
                  then (fst g, acc_add (snd g) r) else g) groups.
Proof.
  induction groups as [|[k a] t IH]; simpl; intro Hnd; [reflexivity|].
  inversion Hnd as [|? ? Hk Ht]; subst.
  destruct (String.eqb_spec k (Summary.location r)) as [E | NE].
  - f_equal. rewrite <- (map_id t) at 1. apply map_ext_in.
    intros [k' a'] Hin. simpl.
    destruct (String.eqb_spec k' (Summary.location r)) as [E' | _]; [|reflexivity].
    exfalso. apply Hk. rewrite E, <- E'.
    change k' with (fst (k', a')). now apply in_map.
  - f_equal. now apply IH.
Qed.

Lemma fold_acc_update (summary : list Summary.row) : forall groups,
  NoDup (map fst groups) ->
  fold_left acc_update summary groups
  = map (fun g => (fst g, fold_left acc_add (group_of summary (fst g)) (snd g))) groups.
Proof.
  induction summary as [|r summary IH]; intros groups Hnd; simpl.
  - rewrite <- (map_id groups) at 1. apply map_ext. now intros [k a].
  - rewrite IH by now rewrite acc_update_keys.
    rewrite acc_update_spec by assumption. rewrite map_map.
    apply map_ext. intros [k a]. simpl.
    rewrite (String.eqb_sym (Summary.location r) k).
    destruct (String.eqb k (Summary.location r)); reflexivity.
Qed.

Lemma groupby_agg_rows (compliance_summary : list Summary.row) :
  groupby_agg compliance_summary
  = map (fun k => agg_row k (group_of compliance_summary k))
      (sorted (unique (map Summary.location compliance_summary))).
Proof.
  unfold groupby_agg. rewrite fold_acc_update.
  - rewrite !map_map. reflexivity.
  - rewrite map_map. cbn [fst]. rewrite map_id. apply sorted_unique_NoDup.
Qed.

Lemma fold_acc_add (g : list Summary.row) : forall a,
  nobs (fold_left acc_add g a) = nobs a + Z.of_nat (List.length g)
  /\ sum_target (fold_left acc_add g a)
     = sum_target a + Zsum (map Summary.target_total g)
  /\ sum_actual (fold_left acc_add g a)
     = sum_actual a + Zsum (map Summary.actual_total g)
  /\ (sum_percent (fold_left acc_add g a)
      == sum_percent a + Qsum (map Summary.percent_complete g))%Q.
Proof.
  induction g as [|r g IH]; intro a; cbn [fold_left map List.length Zsum Qsum fold_right].
  - repeat split; try lia. ring.
  - destruct (IH (acc_add a r)) as (H1 & H2 & H3 & H4).
    rewrite H1, H2, H3, H4. unfold acc_add. cbn [nobs sum_target sum_actual sum_percent].
    fold (Zsum (map Summary.target_total g)) (Zsum (map Summary.actual_total g))
         (Qsum (map Summary.percent_complete g)).
    repeat split; try lia. ring.
Qed.



(** * Further properties *)

(** ** [get_submissions] *)

Lemma firstn_add {A} (a b : nat) : forall l : list A,
  firstn (a + b) l = (firstn a l ++ firstn b (skipn a l))%list.
Proof.
  induction a as [|a IH]; intros [|x l]; simpl; try reflexivity.
  - now destruct b.
  - now rewrite IH.
Qed.

Lemma get_submissions_loop_paging (data : string -> list Api.Submission)
    (form_id : string) (fuel : nat) : forall o,
  (o <= List.length (data form_id))%nat ->
  Z.of_nat (List.length (data form_id)) < Z.of_nat o + batch_size * Z.of_nat fuel ->
  get_submissions_loop (paging_server data form_id) fuel
    (firstn o (data form_id)) (Z.of_nat o)
  = Returned (data form_id).
Proof.
  remember (Z.to_nat batch_size) as n eqn:En.
  assert (Hn : Z.of_nat n = batch_size) by (subst n; reflexivity).
  induction fuel as [|fuel IH]; intros o Ho Hfuel; [lia|].
  cbn [get_submissions_loop]. unfold paging_server at 1.
  rewrite <- En, Nat2Z.id.
  rewrite List.length_firstn, List.length_skipn.
  destruct (Z.ltb_spec (Z.of_nat (Nat.min n (List.length (data form_id) - o)))
              batch_size) as [Hshort | Hfull].
  - rewrite (firstn_all2 (skipn o (data form_id)) (n := n))
      by (rewrite List.length_skipn; lia).
    now rewrite firstn_skipn.
  - rewrite <- firstn_add.
    replace (Z.of_nat o + batch_size) with (Z.of_nat (o + n)) by lia.
    apply IH; lia.
Qed.

(** X1: against a server that pages through the stored submissions,
    [get_submissions] returns all of them, once each and in order, as soon as
    the fuel covers one request more than the full pages. *)
Theorem get_submissions_returns_everything (data : string -> list Api.Submission)
    (fuel : nat) (form_id : string) :
  Z.of_nat (List.length (data form_id)) < batch_size * Z.of_nat fuel ->
  get_submissions (paging_server data) fuel form_id = Returned (data form_id).
Proof.
  intro H. unfold get_submissions.
  apply (get_submissions_loop_paging data form_id fuel 0);
    [apply Nat.le_0_l | change (Z.of_nat 0) with 0; lia].
Qed.

Lemma get_submissions_returns_everything_witness :
  Z.of_nat (List.length (sample_data "222195371011142")) < batch_size * Z.of_nat 3
  /\ get_submissions (paging_server sample_data) 3 "222195371011142"
     = Returned (sample_data "222195371011142").
Proof.
  assert (H : Z.of_nat (List.length (sample_data "222195371011142"))
              < batch_size * Z.of_nat 3) by (vm_compute; reflexivity).
  split; [exact H | exact (get_submissions_returns_everything sample_data 3 _ H)].
Defined.

(** X2: while every response holds at least [batch_size] submissions the
    loop goes on: no amount of fuel makes [get_submissions] return. *)
Theorem get_submissions_loops_on_full_batches
    (server : string -> Z -> Z -> option (list Api.Submission)) (form_id : string) :
  (forall offset, exists l,
      server form_id batch_size offset = Some l
      /\ batch_size <= Z.of_nat (List.length l)) ->
  forall fuel, get_submissions server fuel form_id = Out_of_fuel.
Proof.
  intros Hfull fuel. unfold get_submissions.
  generalize (@nil Api.Submission) 0.
  induction fuel as [|fuel IH]; intros acc offset; [reflexivity|].
  cbn [get_submissions_loop].
  destruct (Hfull offset) as (l & -> & Hl).
  destruct (Z.ltb_spec (Z.of_nat (List.length l)) batch_size); [lia|].
  apply IH.
Qed.

Lemma get_submissions_loops_on_full_batches_witness :
  (forall offset : Z, exists l,
      (fun (_ : string) (_ _ : Z) => Some (repeat sample_sub 1000))
        "222195371011142" batch_size offset = Some l
      /\ batch_size <= Z.of_nat (List.length l))
  /\ get_submissions (fun _ _ _ => Some (repeat sample_sub 1000)) 5 "222195371011142"
     = Out_of_fuel.
Proof.
  assert (H : forall offset : Z, exists l,
             (fun (_ : string) (_ _ : Z) => Some (repeat sample_sub 1000))
               "222195371011142" batch_size offset = Some l
             /\ batch_size <= Z.of_nat (List.length l)).
  { intro offset. exists (repeat sample_sub 1000). split; [reflexivity|].
    rewrite repeat_length. vm_compute. discriminate. }
  split; [exact H|].
  exact (get_submissions_loops_on_full_batches _ _ H 5%nat).
Defined.

(** X3: what the loop returns is what it had, followed by the pages the
    server gave at the offsets [offset], [offset + batch_size], ...: every
    request succeeded, every page but the last is full and the last is
    short. So a failed request never yields a partial list. *)
Theorem get_submissions_returns_pages
    (request : Z -> Z -> option (list Api.Submission)) (fuel : nat) :
  forall all_submissions offset result,
    get_submissions_loop request fuel all_submissions offset = Returned result ->
    exists pages : list (list Api.Submission),
      result = (all_submissions ++ List.concat pages)%list
      /\ pages <> nil
      /\ forall i page, nth_error pages i = Some page ->
           request batch_size (offset + batch_size * Z.of_nat i) = Some page
           /\ (Z.of_nat (List.length page) <? batch_size)
              = Nat.eqb (S i) (List.length pages).
Proof.
  induction fuel as [|fuel IH]; intros acc offset result; [discriminate|].
  cbn [get_submissions_loop].
  destruct (request batch_size offset) as [l|] eqn:Ereq; [|discriminate].
  destruct (Z.of_nat (List.length l) <? batch_size) eqn:Elen.
  - intro H. injection H as <-. exists [l].
    split; [cbn [List.concat]; now rewrite app_nil_r|].
    split; [discriminate|].
    intros i page H. destruct i as [|i]; cbn [nth_error] in H.
    + injection H as <-. split; [|now rewrite Elen].
      now rewrite Z.mul_0_r, Z.add_0_r.
    + now destruct i.
  - intro H. apply IH in H. destruct H as (pages & -> & Hne & Hpages).
    exists (l :: pages).
    split; [cbn [List.concat]; now rewrite app_assoc|].
    split; [discriminate|].
    intros i page H. destruct i as [|i]; cbn [nth_error] in H.
    + injection H as <-. split; [now rewrite Z.mul_0_r, Z.add_0_r|].
      rewrite Elen. cbn [List.length]. destruct pages; [congruence | reflexivity].
    + apply Hpages in H. destruct H as [H1 H2]. split; [|exact H2].
      rewrite <- H1. f_equal. lia.
Qed.

Lemma get_submissions_returns_pages_witness :
  get_submissions_loop (paging_server sample_data "222195371011142") 3 [] 0
  = Returned (sample_data "222195371011142")
  /\ exists pages : list (list Api.Submission),
       sample_data "222195371011142" = ([] ++ List.concat pages)%list
       /\ pages <> nil
       /\ forall i page, nth_error pages i = Some page ->
            paging_server sample_data "222195371011142" batch_size
              (0 + batch_size * Z.of_nat i) = Some page
            /\ (Z.of_nat (List.length page) <? batch_size)
               = Nat.eqb (S i) (List.length pages).
Proof.
  assert (H : get_submissions_loop (paging_server sample_data "222195371011142") 3 [] 0
              = Returned (sample_data "222195371011142"))
    by (vm_compute; reflexivity).
  split; [exact H|].
  exact (get_submissions_returns_pages _ 3 [] 0 _ H).
Defined.

(** ** [extract_row] *)

Lemma location_fold_none (location_field : string) (l : list (string * Api.Answer)) :
  forall init,
    fold_left
      (fun loc kv =>
         let v := snd kv in
         if String.eqb (Api.name v) location_field
         then Some (match Api.answer v with Some a => a | None => "" end)
         else loc) l init = None
    <-> init = None /\ forall kv, In kv l -> Api.name (snd kv) <> location_field.
Proof.
  induction l as [|kv l IH]; intro init; cbn [fold_left In].
  - split; [intro H; split; [exact H | intros _ []] | intros [H _]; exact H].
  - rewrite IH. cbn zeta.
    destruct (String.eqb_spec (Api.name (snd kv)) location_field) as [E | NE].
    + split; [intros [H _]; discriminate|].
      intros [_ H]. exfalso. apply (H kv); [now left | exact E].
    + split.
      * intros [H1 H2]. split; [exact H1|]. intros kv' [<- | H]; auto.
      * intros [H1 H2]. split; [exact H1|]. intros kv' H. apply H2. now right.
Qed.

Lemma location_fold_unnamed (location_field : string) (l : list (string * Api.Answer)) :
  (forall kv, In kv l -> Api.name (snd kv) <> location_field) ->
  forall init,
    fold_left
      (fun loc kv =>
         let v := snd kv in
         if String.eqb (Api.name v) location_field
         then Some (match Api.answer v with Some a => a | None => "" end)
         else loc) l init = init.
Proof.
  induction l as [|kv l IH]; intros H init; cbn [fold_left]; [reflexivity|].
  cbn zeta.
  destruct (String.eqb_spec (Api.name (snd kv)) location_field) as [E | NE].
  - exfalso. apply (H kv); [now left | exact E].
  - apply IH. intros kv' Hin. apply H. now right.
Qed.

(** X4: the row has no location exactly when no answer of the submission is
    named [location_field]. *)
Theorem extract_row_location_missing (sub : Api.Submission)
    (form_id location_field : string) :
  Raw.location (extract_row sub form_id location_field) = None
  <-> forall kv, In kv (Api.answers sub) -> Api.name (snd kv) <> location_field.
Proof.
  unfold extract_row. cbn [Raw.location]. rewrite location_fold_none. tauto.
Qed.

(** X5: the location of the row is read from the last answer named
    [location_field]: its ['answer'], or the empty string when it has none. *)
Theorem extract_row_last_answer_wins (id created_at form_id location_field key : string)
    (before after : list (string * Api.Answer)) (v : Api.Answer) :
  Api.name v = location_field ->
  (forall kv, In kv after -> Api.name (snd kv) <> location_field) ->
  Raw.location
    (extract_row (Api.mkSubmission id created_at (before ++ (key, v) :: after))
       form_id location_field)
  = Some (match Api.answer v with Some a => a | None => "" end).
Proof.
  intros Hv Hafter. unfold extract_row. cbn [Raw.location Api.answers].
  rewrite fold_left_app. cbn [fold_left snd]. cbn zeta.
  rewrite Hv, String.eqb_refl.
  now apply location_fold_unnamed.
Qed.

Lemma extract_row_last_answer_wins_witness :
  Api.name (Api.mkAnswer "location" None) = "location"
  /\ Raw.location
       (extract_row
          (Api.mkSubmission "1" "2024-01-02 10:00:00"
             ([("2", Api.mkAnswer "location" (Some "A"))]
              ++ ("3", Api.mkAnswer "location" None)
                 :: [("4", Api.mkAnswer "notes" (Some "x"))]))
          "222195371011142" "location")
     = Some "".
Proof.
  split; [reflexivity|].
  apply (extract_row_last_answer_wins "1" "2024-01-02 10:00:00" "222195371011142"
           "location" "3" [("2", Api.mkAnswer "location" (Some "A"))]
           [("4", Api.mkAnswer "notes" (Some "x"))] (Api.mkAnswer "location" None)).
  - reflexivity.
  - intros kv [<- | []]. discriminate.
Defined.

(** ** The two tables of forms *)

Lemma FORM_NAME_TO_ID_inverse (name form_id : string) :
  dict_get FORM_NAME_TO_ID name = Some form_id ->
  dict_get FORM_ID_TO_NAME form_id = Some name.
Proof.
  unfold FORM_NAME_TO_ID, FORM_ID_TO_NAME. cbn [map dict_get fst snd].
  repeat match goal with
         | |- context [String.eqb ?a name] =>
             destruct (String.eqb_spec a name) as [<- | _]
         end;
    intro H; inversion H; reflexivity.
Qed.

(** X6: a form name that [FORM_NAME_TO_ID] knows comes back as the
    [form_name] of the rows extracted under its identifier, and it is a key
    of [FORM_COMPLIANCE]; an identifier that [FORM_ID_TO_NAME] does not
    know is its own [form_name]. *)
Theorem form_name_round_trip (sub : Api.Submission) (location_field : string) :
  (forall name form_id,
      dict_get FORM_NAME_TO_ID name = Some form_id ->
      Raw.form_name (extract_row sub form_id location_field) = name
      /\ dict_get FORM_COMPLIANCE name <> None)
  /\ (forall form_id,
        dict_get FORM_ID_TO_NAME form_id = None ->
        Raw.form_name (extract_row sub form_id location_field) = form_id).
Proof.
  split.
  - intros name form_id H. split.
    + unfold extract_row. cbn [Raw.form_name].
      now rewrite (FORM_NAME_TO_ID_inverse _ _ H).
    + revert H. unfold FORM_NAME_TO_ID, FORM_ID_TO_NAME, FORM_COMPLIANCE.
      cbn [map dict_get fst snd].
      repeat match goal with
             | |- context [String.eqb ?a name] =>
                 destruct (String.eqb_spec a name) as [<- | _]
             end;
        intro H; try discriminate H; cbn; discriminate.
  - intros form_id H. unfold extract_row. cbn [Raw.form_name]. now rewrite H.
Qed.

Lemma form_name_round_trip_witness :
  dict_get FORM_NAME_TO_ID "Site Audit" = Some "222195371011142"
  /\ Raw.form_name (extract_row unanswered "222195371011142" LOCATION_FIELD)
     = "Site Audit".
Proof.
  split; [reflexivity|].
  refine (proj1 (proj1 (form_name_round_trip unanswered LOCATION_FIELD)
                   "Site Audit" "222195371011142" _)).
  reflexivity.
Defined.

(** ** [get_all_data] *)

Lemma append_rows_filter (location_list : list string) (form_id : string)
    (submissions : list Api.Submission) : forall all_rows,
  append_rows location_list form_id all_rows submissions
  = (all_rows
     ++ filter (kept location_list)
          (map (fun sub => extract_row sub form_id LOCATION_FIELD) submissions))%list.
Proof.
  unfold append_rows.
  induction submissions as [|sub subs IH]; intro all_rows; cbn [fold_left map filter].
  - now rewrite app_nil_r.
  - rewrite IH. cbn zeta.
    destruct (kept location_list (extract_row sub form_id LOCATION_FIELD)).
    + now rewrite <- app_assoc.
    + reflexivity.
Qed.

(** The rows [get_all_data] builds, when it returns. *)
Lemma get_all_data_loop_rows (server : string -> Z -> Z -> option (list Api.Submission))
    (fuel : nat) (location_list : list string) (form_ids : list string) :
  forall all_rows result,
    get_all_data_loop server fuel location_list form_ids all_rows = Returned result ->
    result
    = (all_rows ++ rows_of_forms (fetched server fuel) location_list form_ids)%list.
Proof.
  unfold rows_of_forms.
  induction form_ids as [|form_id t IH]; intros all_rows result;
    cbn [get_all_data_loop flat_map].
  - intro H. injection H as <-. now rewrite app_nil_r.
  - unfold fetched at 1.
    destruct (get_submissions server fuel form_id) as [l| |]; try discriminate.
    intro H. apply IH in H. subst result.
    now rewrite append_rows_filter, <- app_assoc.
Qed.

Lemma get_all_data_loop_returns (server : string -> Z -> Z -> option (list Api.Submission))
    (fuel : nat) (location_list : list string) (form_ids : list string) :
  (forall form_id, In form_id form_ids ->
     exists l, get_submissions server fuel form_id = Returned l) ->
  forall all_rows,
    get_all_data_loop server fuel location_list form_ids all_rows
    = Returned
        (all_rows ++ rows_of_forms (fetched server fuel) location_list form_ids)%list.
Proof.
  unfold rows_of_forms.
  induction form_ids as [|form_id t IH]; intros H all_rows;
    cbn [get_all_data_loop flat_map].
  - now rewrite app_nil_r.
  - unfold fetched at 1.
    destruct (H form_id (or_introl eq_refl)) as (l & ->).
    rewrite IH by (intros; apply H; now right).
    now rewrite append_rows_filter, <- app_assoc.
Qed.

Lemma form_ids_of_names (form_names : list string) : forall form_ids,
  form_ids_of form_names = Some form_ids ->
  forall form_id, In form_id form_ids ->
    exists name, In name form_names /\ dict_get FORM_NAME_TO_ID name = Some form_id.
Proof.
  induction form_names as [|name t IH]; intros form_ids; cbn [form_ids_of].
  - intro H. injection H as <-. intros ? [].
  - destruct (dict_get FORM_NAME_TO_ID name) as [i|] eqn:E; [|discriminate].
    cbn [bind]. destruct (form_ids_of t) as [rest|]; [|discriminate].
    cbn [bind]. intro H. injection H as <-.
    intros form_id [<- | Hin].
    + exists name. split; [now left | exact E].
    + destruct (IH rest eq_refl form_id Hin) as (n & Hn & En).
      exists n. split; [now right | exact En].
Qed.

(** X7: a form name that [FORM_NAME_TO_ID] does not know makes
    [get_all_data] raise, whatever the server answers. *)
Theorem get_all_data_unknown_form (server : string -> Z -> Z -> option (list Api.Submission))
    (fuel : nat) (form_names location_list : list string) (name : string) :
  In name form_names ->
  dict_get FORM_NAME_TO_ID name = None ->
  get_all_data server fuel form_names location_list = Raised.
Proof.
  intros Hin Hnone. unfold get_all_data.
  assert (H : form_ids_of form_names = None).
  { induction form_names as [|n t IH]; [destruct Hin|]. cbn [form_ids_of].
    destruct Hin as [-> | Hin].
    - now rewrite Hnone.
    - destruct (dict_get FORM_NAME_TO_ID n); [|reflexivity]. cbn [bind].
      now rewrite (IH Hin). }
  now rewrite H.
Qed.

Lemma get_all_data_unknown_form_witness :
  In "Fire Drill" ["Site Audit"; "Fire Drill"]
  /\ dict_get FORM_NAME_TO_ID "Fire Drill" = None
  /\ get_all_data (paging_server sample_data) 3 ["Site Audit"; "Fire Drill"] [] = Raised.
Proof.
  split; [right; left; reflexivity|]. split; [reflexivity|].
  apply (get_all_data_unknown_form _ _ _ _ "Fire Drill");
    [right; left; reflexivity | reflexivity].
Defined.

(** X8: when locations are selected, every row [get_all_data] returns has one
    of them as its location; rows without a location are dropped. *)
Theorem get_all_data_keeps_selected_locations
    (server : string -> Z -> Z -> option (list Api.Submission))
    (fuel : nat) (form_names location_list : list string) (df_raw : list Raw.row) :
  location_list <> [] ->
  get_all_data server fuel form_names location_list = Returned df_raw ->
  forall row, In row df_raw ->
    exists l, Raw.location row = Some l /\ In l location_list.
Proof.
  intros Hne H row Hrow. unfold get_all_data in H.
  destruct (form_ids_of form_names) as [form_ids|]; [|discriminate].
  apply get_all_data_loop_rows in H. subst df_raw. cbn [app] in Hrow.
  unfold rows_of_forms in Hrow.
  apply in_flat_map in Hrow. destruct Hrow as (form_id & _ & Hrow).
  apply filter_In in Hrow. destruct Hrow as [_ Hkept].
  unfold kept in Hkept. destruct location_list as [|l0 t]; [congruence|].
  destruct (Raw.location row) as [l|]; [|discriminate].
  exists l. split; [reflexivity|].
  apply existsb_exists in Hkept. destruct Hkept as (x & Hx & E).
  apply String.eqb_eq in E. now subst.
Qed.

Lemma get_all_data_keeps_selected_locations_witness :
  ["A"] <> []
  /\ get_all_data (paging_server (fun _ => [sample_sub; unanswered])) 1
       ["Site Audit"] ["A"]
     = Returned [extract_row sample_sub "222195371011142" LOCATION_FIELD]
  /\ forall row,
       In row [extract_row sample_sub "222195371011142" LOCATION_FIELD] ->
       exists l, Raw.location row = Some l /\ In l ["A"].
Proof.
  split; [discriminate|]. split; [reflexivity|].
  apply (get_all_data_keeps_selected_locations
           (paging_server (fun _ => [sample_sub; unanswered])) 1 ["Site Audit"] ["A"]);
    [discriminate | reflexivity].
Defined.

(** X9: every row [get_all_data] returns carries the name of one of the
    forms that were asked for. *)
Theorem get_all_data_form_names
    (server : string -> Z -> Z -> option (list Api.Submission))
    (fuel : nat) (form_names location_list : list string) (df_raw : list Raw.row) :
  get_all_data server fuel form_names location_list = Returned df_raw ->
  forall row, In row df_raw -> In (Raw.form_name row) form_names.
Proof.
  intros H row Hrow. unfold get_all_data in H.
  destruct (form_ids_of form_names) as [form_ids|] eqn:Eids; [|discriminate].
  apply get_all_data_loop_rows in H. subst df_raw. cbn [app] in Hrow.
  unfold rows_of_forms in Hrow.
  apply in_flat_map in Hrow. destruct Hrow as (form_id & Hid & Hrow).
  apply filter_In in Hrow. destruct Hrow as [Hrow _].
  apply in_map_iff in Hrow. destruct Hrow as (sub & <- & _).
  destruct (form_ids_of_names _ _ Eids _ Hid) as (name & Hname & E).
  unfold extract_row. cbn [Raw.form_name].
  now rewrite (FORM_NAME_TO_ID_inverse _ _ E).
Qed.

Lemma get_all_data_form_names_witness :
  get_all_data (paging_server (fun _ => [sample_sub])) 1 ["Site Audit"] []
  = Returned [extract_row sample_sub "222195371011142" LOCATION_FIELD]
  /\ forall row,
       In row [extract_row sample_sub "222195371011142" LOCATION_FIELD] ->
       In (Raw.form_name row) ["Site Audit"].
Proof.
  split; [reflexivity|].
  apply (get_all_data_form_names (paging_server (fun _ => [sample_sub])) 1
           ["Site Audit"] []).
  reflexivity.
Defined.

Lemma filter_kept_nil (l : list Raw.row) : filter (kept []) l = l.
Proof. induction l as [|r l IH]; cbn [filter kept]; [reflexivity | now rewrite IH]. Qed.

Lemma get_submissions_paging (data : string -> list Api.Submission)
    (fuel : nat) (form_id : string) :
  Z.of_nat (List.length (data form_id)) < batch_size * Z.of_nat fuel ->
  fetched (paging_server data) fuel form_id = data form_id
  /\ exists l, get_submissions (paging_server data) fuel form_id = Returned l.
Proof.
  intro H. unfold fetched, get_submissions.
  assert (E : get_submissions_loop (paging_server data form_id) fuel [] 0
              = Returned (data form_id)).
  { apply (get_submissions_loop_paging data form_id fuel 0);
      [apply Nat.le_0_l | change (Z.of_nat 0) with 0; lia]. }
  rewrite E. split; [reflexivity | eexists; reflexivity].
Qed.

(** X10: against a paging server, with fuel for the largest form and no
    location selected, [get_all_data] returns one row for each stored
    submission of each requested form, in the order of the forms and of
    the submissions. *)
Theorem get_all_data_one_row_per_submission (data : string -> list Api.Submission)
    (fuel : nat) (form_names form_ids : list string) :
  form_ids_of form_names = Some form_ids ->
  (forall form_id, In form_id form_ids ->
     Z.of_nat (List.length (data form_id)) < batch_size * Z.of_nat fuel) ->
  get_all_data (paging_server data) fuel form_names []
  = Returned
      (flat_map
         (fun form_id =>
            map (fun sub => extract_row sub form_id LOCATION_FIELD) (data form_id))
         form_ids).
Proof.
  intros Hids Hfuel. unfold get_all_data. rewrite Hids.
  rewrite get_all_data_loop_returns.
  - cbn [app]. f_equal. unfold rows_of_forms.
    clear Hids. induction form_ids as [|i t IH]; [reflexivity|].
    cbn [flat_map]. rewrite IH by (intros; apply Hfuel; now right). f_equal.
    rewrite (proj1 (get_submissions_paging data fuel i (Hfuel i (or_introl eq_refl)))).
    apply filter_kept_nil.
  - intros i Hi. exact (proj2 (get_submissions_paging data fuel i (Hfuel i Hi))).
Qed.

Lemma get_all_data_one_row_per_submission_witness :
  form_ids_of ["Site Audit"; "Daily Huddle"]
  = Some ["222195371011142"; "242047162465151"]
  /\ get_all_data (paging_server sample_data) 3 ["Site Audit"; "Daily Huddle"] []
     = Returned
         (flat_map
            (fun form_id =>
               map (fun sub => extract_row sub form_id LOCATION_FIELD)
                 (sample_data form_id))
            ["222195371011142"; "242047162465151"]).
Proof.
  split; [reflexivity|].
  apply get_all_data_one_row_per_submission; [reflexivity|].
  intros form_id [<- | [<- | []]]; vm_compute; reflexivity.
Defined.

(** ** The two buttons *)

Lemma load_locations_In (blank : string -> bool) (df_raw_temp : list Raw.row)
    (loc : string) :
  In loc (load_locations blank df_raw_temp)
  <-> In (Some loc) (map Raw.location df_raw_temp) /\ blank loc = false.
Proof.
  unfold load_locations. destruct df_raw_temp as [|r0 rest]; [cbn; tauto|].
  rewrite sorted_In, filter_In. unfold unique.
  rewrite unique_from_In, dropna_In, negb_true_iff. cbn [In]. tauto.
Qed.

(** X11: the locations offered after "Load Locations" are in ascending
    order, without repetition, and they are exactly the locations present in
    the fetched rows that are not blank. *)
Theorem load_locations_sorted_distinct_not_blank (blank : string -> bool)
    (df_raw_temp : list Raw.row) :
  ascending (load_locations blank df_raw_temp)
  /\ NoDup (load_locations blank df_raw_temp)
  /\ forall loc,
       In loc (load_locations blank df_raw_temp)
       <-> In (Some loc) (map Raw.location df_raw_temp) /\ blank loc = false.
Proof.
  split; [|split; [|apply load_locations_In]];
    unfold load_locations; destruct df_raw_temp as [|r0 rest]; try constructor.
  - apply sorted_ascending.
  - set (df := r0 :: rest).
    apply (Permutation_NoDup (l := filter (fun loc => negb (blank loc))
                                     (unique (dropna (map Raw.location df))))).
    + apply Permutation_sym, sort_by_perm.
    + apply NoDup_filter, unique_from_NoDup.
Qed.

(** X12: when the selected locations are taken from the offered ones, no row
    of the compliance summary has a blank location. *)
Theorem selected_from_offered_never_blank (blank : string -> bool)
    (df_raw_temp df_raw : list Raw.row) (start_date end_date : date)
    (selected_forms selected_locations : list string) :
  selected_locations <> [] ->
  incl selected_locations (load_locations blank df_raw_temp) ->
  df_raw <> [] ->
  exists out,
    compute_period_targets df_raw start_date end_date selected_forms selected_locations
    = Some out
    /\ forall r, In r out -> blank (Summary.location r) = false.
Proof.
  intros Hsel Hincl Hne. eexists. split; [now apply compute_period_targets_some|].
  intros r Hr. apply in_summary_rows_of in Hr.
  destruct Hr as (f & req & loc & _ & _ & Hloc & ->).
  cbn [summary_row Summary.location].
  unfold effective_locations in Hloc.
  destruct selected_locations as [|l0 t]; [congruence|].
  apply Hincl in Hloc. apply load_locations_In in Hloc. tauto.
Qed.

Lemma selected_from_offered_never_blank_witness :
  ["A"] <> []
  /\ incl ["A"]
       (load_locations blank_sample
          [submission "Site Audit" (Some "A"); submission "Site Audit" (Some "")])
  /\ exists out,
       compute_period_targets
         [submission "Site Audit" (Some "A"); submission "Site Audit" (Some "")]
         (jan 1) (jan 5) ["Site Audit"] ["A"] = Some out
       /\ forall r, In r out -> blank_sample (Summary.location r) = false.
Proof.
  assert (H : incl ["A"]
                (load_locations blank_sample
                   [submission "Site Audit" (Some "A");
                    submission "Site Audit" (Some "")])).
  { intros x [<- | []]. left. reflexivity. }
  split; [discriminate|]. split; [exact H|].
  apply (selected_from_offered_never_blank blank_sample
           [submission "Site Audit" (Some "A"); submission "Site Audit" (Some "")]);
    [discriminate | exact H | discriminate].
Defined.

(** X13: "Run Report" never fails in the calculator: once [get_all_data] has
    returned, the report is the warning when no row came back, and the three
    tables otherwise. *)
Theorem run_report_never_raises_in_calculator
    (server : string -> Z -> Z -> option (list Api.Submission)) (fuel : nat)
    (start_date end_date : date) (selected_forms selected_locations : list string)
    (df_raw : list Raw.row) :
  get_all_data server fuel selected_forms selected_locations = Returned df_raw ->
  (df_raw = [] ->
   run_report server fuel start_date end_date selected_forms selected_locations
   = Returned No_submissions)
  /\ (df_raw <> [] ->
      exists compliance_summary,
        compute_period_targets df_raw start_date end_date
          selected_forms selected_locations = Some compliance_summary
        /\ run_report server fuel start_date end_date selected_forms selected_locations
           = Returned (Tables compliance_summary
                         (leaderboard_with_badges compliance_summary) df_raw)).
Proof.
  intro H. unfold run_report. rewrite H. split.
  - now intros ->.
  - intro Hne. eexists. split; [now apply compute_period_targets_some|].
    rewrite compute_period_targets_some by assumption.
    destruct df_raw; [congruence | reflexivity].
Qed.

Lemma run_report_never_raises_in_calculator_witness :
  get_all_data (paging_server (fun _ => [sample_sub])) 1 ["Site Audit"] []
  = Returned [extract_row sample_sub "222195371011142" LOCATION_FIELD]
  /\ exists compliance_summary,
       compute_period_targets [extract_row sample_sub "222195371011142" LOCATION_FIELD]
         (jan 1) (jan 5) ["Site Audit"] [] = Some compliance_summary
       /\ run_report (paging_server (fun _ => [sample_sub])) 1 (jan 1) (jan 5)
            ["Site Audit"] []
          = Returned (Tables compliance_summary
                        (leaderboard_with_badges compliance_summary)
                        [extract_row sample_sub "222195371011142" LOCATION_FIELD]).
Proof.
  split; [reflexivity|].
  refine (proj2 (run_report_never_raises_in_calculator
                   (paging_server (fun _ => [sample_sub])) 1 (jan 1) (jan 5)
                   ["Site Audit"] [] _ _) _);
    [reflexivity | discriminate].
Defined.

(** ** More on the calculator *)

Lemma count_matching_bounds (df_raw : list Raw.row) (f loc : string) :
  0 <= count_matching df_raw f loc <= Z.of_nat (List.length df_raw).
Proof.
  unfold count_matching. pose proof (filter_length_le (matches f loc) df_raw). lia.
Qed.

(** X14: in every row of the summary the form is a selected form that has a
    rule, the quota and the interval are those of the rule, the target is
    the number of periods times the quota, and the counts are in range. *)
Theorem summary_row_follows_rule (df_raw : list Raw.row) (start_date end_date : date)
    (selected_forms selected_locations : list string) (out : list Summary.row)
    (r : Summary.row) :
  compute_period_targets df_raw start_date end_date selected_forms selected_locations
  = Some out ->
  In r out ->
  In (Summary.form_name r) selected_forms
  /\ (exists req,
        FORM_COMPLIANCE_get (Summary.form_name r) = Some req
        /\ Summary.quota_per_period r = quota req
        /\ Summary.interval r = capitalize (interval req))
  /\ Summary.target_total r = Summary.periods_in_range r * Summary.quota_per_period r
  /\ 0 <= Summary.periods_in_range r
  /\ 0 < Summary.quota_per_period r
  /\ 0 <= Summary.actual_total r <= Z.of_nat (List.length df_raw).
Proof.
  intros Hrun Hin.
  assert (Hne : df_raw <> []).
  { intros ->. apply compute_period_targets_empty in Hrun. now subst. }
  rewrite compute_period_targets_some in Hrun by assumption.
  injection Hrun as <-. apply in_summary_rows_of in Hin.
  destruct Hin as (f & req & loc & Hf & Hreq & _ & ->).
  unfold summary_row.
  cbn [Summary.form_name Summary.quota_per_period Summary.interval
       Summary.target_total Summary.periods_in_range Summary.actual_total].
  split; [exact Hf|]. split; [exists req; auto|]. split; [reflexivity|].
  split; [lia|]. split; [now apply (FORM_COMPLIANCE_quota_pos f)|].
  apply count_matching_bounds.
Qed.

Lemma summary_row_follows_rule_witness :
  compute_period_targets raw_site_audit (jan 1) (jan 5) ["Site Audit"] []
  = Some [row_site_audit]
  /\ In "Site Audit" ["Site Audit"]
  /\ Summary.target_total row_site_audit
     = Summary.periods_in_range row_site_audit * Summary.quota_per_period row_site_audit.
Proof.
  split; [reflexivity|].
  assert (H := summary_row_follows_rule raw_site_audit (jan 1) (jan 5) ["Site Audit"] []
                 [row_site_audit] row_site_audit eq_refl (or_introl eq_refl)).
  split; [exact (proj1 H) | exact (proj1 (proj2 (proj2 H)))].
Defined.

(** X15: the status of a row is [Met] exactly when [actual_total] reaches
    [target_total]; otherwise it is [Missing] followed by the positive
    number of submissions that lack. *)
Theorem status_met_or_missing (df_raw : list Raw.row) (start_date end_date : date)
    (selected_forms selected_locations : list string) (out : list Summary.row)
    (r : Summary.row) :
  compute_period_targets df_raw start_date end_date selected_forms selected_locations
  = Some out ->
  In r out ->
  (Summary.status r = "Met" <-> Summary.target_total r <= Summary.actual_total r)
  /\ (Summary.actual_total r < Summary.target_total r ->
      Summary.status r
      = ("Missing " ++ str_of_int (Summary.target_total r - Summary.actual_total r))%string).
Proof.
  intros Hrun Hin.
  assert (Hne : df_raw <> []).
  { intros ->. apply compute_period_targets_empty in Hrun. now subst. }
  rewrite compute_period_targets_some in Hrun by assumption.
  injection Hrun as <-. apply in_summary_rows_of in Hin.
  destruct Hin as (f & req & loc & _ & _ & _ & ->).
  unfold summary_row.
  cbn [Summary.status Summary.target_total Summary.actual_total].
  set (actual := count_matching df_raw f loc).
  set (target := Z.of_nat _ * quota req).
  destruct (Z.geb_spec actual target) as [Hge | Hlt].
  - split; [split; [lia | reflexivity] | lia].
  - split; [|reflexivity].
    split; [intro H; cbn in H; discriminate H | lia].
Qed.

Lemma status_met_or_missing_witness :
  compute_period_targets raw_three_locations (jan 1) (jan 5) ["Overnight Valet"] []
  = Some summary_three_locations
  /\ (4 < 5 -> "Missing 1" = ("Missing " ++ str_of_int (5 - 4))%string).
Proof.
  split; [reflexivity|].
  exact (proj2 (status_met_or_missing raw_three_locations (jan 1) (jan 5)
                  ["Overnight Valet"] [] summary_three_locations
                  (Summary.mk "Overnight Valet" "C" "Daily" 5 1 5 4 (800 # 10) "Missing 1")
                  eq_refl (or_intror (or_intror (or_introl eq_refl))))).
Defined.

(** X16: on a frame without rows the calculator raises [KeyError] when no
    location is selected; with selected locations it raises as soon as one
    selected form has a rule, and returns no row otherwise. *)
Theorem compute_period_targets_on_empty_frame (start_date end_date : date)
    (selected_forms : list string) :
  compute_period_targets [] start_date end_date selected_forms [] = None
  /\ forall loc rest,
       compute_period_targets [] start_date end_date selected_forms (loc :: rest)
       = match compliance_forms selected_forms with
         | [] => Some []
         | _ :: _ => None
         end.
Proof.
  split; [reflexivity|]. intros loc rest.
  unfold compute_period_targets. cbn [bind].
  fold (compliance_forms selected_forms).
  assert (Hrule : forall f, In f (compliance_forms selected_forms) ->
                    exists req, FORM_COMPLIANCE_get f = Some req).
  { intros f Hf. apply filter_In in Hf. destruct Hf as [_ Hf].
    destruct (FORM_COMPLIANCE_get f) as [req|]; [now exists req | discriminate]. }
  destruct (compliance_forms selected_forms) as [|f t]; [reflexivity|].
  cbn [for_each]. unfold form_body at 1.
  destruct (Hrule f (or_introl eq_refl)) as (req & ->). reflexivity.
Qed.

(** ** The number of periods *)

Lemma generate_range_days (fuel : nat) : forall cur last,
  fuel = Z.to_nat (last - cur + 1) ->
  generate_range fuel cur last 1 = days_from cur fuel.
Proof.
  induction fuel as [|fuel IH]; intros cur last Hfuel; [reflexivity|].
  cbn [generate_range days_from].
  destruct (Z.leb_spec cur last); [|lia].
  f_equal. apply IH. lia.
Qed.

Lemma length_days_from (n : nat) : forall s, List.length (days_from s n) = n.
Proof. induction n as [|n IH]; intro s; cbn; [reflexivity | now rewrite IH]. Qed.

(** X17: a daily form has one period for each day from [start] to [end],
    both included, and a monthly form one period for each calendar month
    from the month of [start] to the month of [end]; none when [end] comes
    first. *)
Theorem daily_and_monthly_periods (start_date end_date : date) :
  periods_of "daily" start_date end_date
  = days_between (toordinal start_date) (toordinal end_date)
  /\ Z.of_nat (List.length (periods_of "daily" start_date end_date))
     = Z.max 0 (toordinal end_date - toordinal start_date + 1)
  /\ Z.of_nat (List.length (periods_of "monthly" start_date end_date))
     = Z.max 0 ((year end_date * 12 + month end_date)
                - (year start_date * 12 + month start_date) + 1).
Proof.
  unfold periods_of. cbn [String.eqb Ascii.eqb Bool.eqb].
  unfold date_range_D, period_range_M, days_between, period_ordinal_M.
  rewrite !generate_range_days by reflexivity.
  rewrite !length_days_from. repeat split; lia.
Qed.

Lemma days_before_year_step (y : Z) :
  days_before_year (y + 1)
  = days_before_year y + 365 + (if is_leap y then 1 else 0).
Proof.
  unfold days_before_year, is_leap. cbn zeta.
  replace (y + 1 - 1) with y by lia.
  destruct (Z.eqb_spec (y mod 4) 0), (Z.eqb_spec (y mod 100) 0),
    (Z.eqb_spec (y mod 400) 0); cbn [andb orb negb];
    Z.div_mod_to_equations; lia.
Qed.

Lemma days_before_year_mono (a b : Z) :
  a <= b -> days_before_year a <= days_before_year b.
Proof.
  intro H. unfold days_before_year. cbn zeta. Z.div_mod_to_equations. lia.
Qed.

Lemma month_cases (m : Z) :
  1 <= m <= 12 ->
  m = 1 \/ m = 2 \/ m = 3 \/ m = 4 \/ m = 5 \/ m = 6
  \/ m = 7 \/ m = 8 \/ m = 9 \/ m = 10 \/ m = 11 \/ m = 12.
Proof. lia. Qed.

(** The days of a month come after those of the months before it and
    before those of the months after it. *)
Lemma toordinal_bounds (d : date) :
  valid_date d ->
  days_before_year (year d) + days_before_month (year d) (month d) < toordinal d
  /\ toordinal d
     <= days_before_year (year d) + days_before_month (year d) (month d)
        + days_in_month (year d) (month d).
Proof. unfold valid_date, toordinal. lia. Qed.

Lemma days_before_month_next (y m m' : Z) :
  1 <= m -> m < m' -> m' <= 12 ->
  days_before_month y m + days_in_month y m <= days_before_month y m'.
Proof.
  intros H1 H2 H3. unfold days_before_month, days_in_month.
  destruct (month_cases m ltac:(lia)) as [-> | [-> | [-> | [-> | [-> | [-> |
            [-> | [-> | [-> | [-> | [-> | ->]]]]]]]]]]];
    destruct (month_cases m' ltac:(lia)) as [-> | [-> | [-> | [-> | [-> | [-> |
              [-> | [-> | [-> | [-> | [-> | ->]]]]]]]]]]];
    try lia; destruct (is_leap y); cbn; lia.
Qed.

Lemma days_before_month_year (y m : Z) :
  1 <= m <= 12 ->
  days_before_month y m + days_in_month y m <= 365 + (if is_leap y then 1 else 0).
Proof.
  intro H. unfold days_before_month, days_in_month.
  destruct (month_cases m H) as [-> | [-> | [-> | [-> | [-> | [-> |
            [-> | [-> | [-> | [-> | [-> | ->]]]]]]]]]]];
    destruct (is_leap y); cbn; lia.
Qed.

(** For dates, the order of the days is the order of the months. *)
Lemma period_ordinal_M_mono (s e : date) :
  valid_date s -> valid_date e ->
  toordinal s <= toordinal e -> period_ordinal_M s <= period_ordinal_M e.
Proof.
  intros Hs He Hle.
  pose proof (toordinal_bounds s Hs) as [Hs1 _].
  pose proof (toordinal_bounds e He) as [_ He2].
  destruct Hs as (_ & Hms & _). destruct He as (_ & Hme & _).
  unfold period_ordinal_M.
  destruct (Z_lt_le_dec (year e) (year s)) as [Hy | Hy].
  - exfalso.
    pose proof (days_before_month_year (year e) (month e) Hme) as Hm.
    pose proof (days_before_year_step (year e)) as Hstep.
    pose proof (days_before_year_mono (year e + 1) (year s) ltac:(lia)) as Hmono.
    assert (0 <= days_before_month (year s) (month s)).
    { unfold days_before_month.
      destruct (month_cases _ Hms) as [-> | [-> | [-> | [-> | [-> | [-> |
                [-> | [-> | [-> | [-> | [-> | ->]]]]]]]]]]];
        destruct (is_leap (year s)); cbn; lia. }
    lia.
  - destruct (Z.eq_dec (year s) (year e)) as [E | NE]; [|lia].
    destruct (Z_lt_le_dec (month e) (month s)) as [Hm | Hm]; [|lia].
    exfalso. rewrite E in *.
    pose proof (days_before_month_next (year e) (month e) (month s)
                  ltac:(lia) Hm ltac:(lia)).
    lia.
Qed.

Lemma FORM_COMPLIANCE_intervals (f : string) (req : Rule) :
  FORM_COMPLIANCE_get f = Some req ->
  interval req = "daily" \/ interval req = "weekly" \/ interval req = "monthly".
Proof.
  unfold FORM_COMPLIANCE_get, FORM_COMPLIANCE. cbn [dict_get].
  repeat match goal with
         | |- context [String.eqb ?a f] => destruct (String.eqb a f)
         end;
    intro H; inversion H; cbn; auto.
Qed.

Lemma periods_of_at_least_one (i : string) (start_date end_date : date) :
  i = "daily" \/ i = "weekly" \/ i = "monthly" ->
  valid_date start_date -> valid_date end_date ->
  toordinal start_date <= toordinal end_date ->
  1 <= Z.of_nat (List.length (periods_of i start_date end_date)).
Proof.
  intros Hi Hs He Hle.
  pose proof (period_ordinal_M_mono _ _ Hs He Hle) as Hm.
  unfold periods_of. destruct Hi as [-> | [-> | ->]]; cbn [String.eqb Ascii.eqb Bool.eqb].
  - unfold date_range_D. rewrite generate_range_days, length_days_from by reflexivity.
    lia.
  - destruct (Z.eqb_spec (weekday start_date) 0) as [Hmon | _]; cbn [negb];
      [|cbn [List.length]; lia].
    rewrite date_range_W_MON_mondays. unfold mondays_between, days_between.
    destruct (Z.to_nat (toordinal end_date - toordinal start_date + 1)) as [|n] eqn:En;
      [lia|].
    cbn [days_from filter].
    assert (Hs0 : is_monday (toordinal start_date) = true)
      by (unfold is_monday; now apply Z.eqb_eq).
    rewrite Hs0. cbn [List.length]. lia.
  - unfold period_range_M. rewrite generate_range_days, length_days_from by reflexivity.
    lia.
Qed.

(** X18: when [start] does not come after [end], every row of the summary
    has at least one period and a positive target, so that its percentage
    is never the 0 of a target of 0. *)
Theorem ordered_dates_give_positive_targets (df_raw : list Raw.row)
    (start_date end_date : date) (selected_forms selected_locations : list string)
    (out : list Summary.row) (r : Summary.row) :
  valid_date start_date -> valid_date end_date ->
  toordinal start_date <= toordinal end_date ->
  compute_period_targets df_raw start_date end_date selected_forms selected_locations
  = Some out ->
  In r out ->
  1 <= Summary.periods_in_range r /\ 0 < Summary.target_total r.
Proof.
  intros Hs He Hle Hrun Hin.
  assert (Hne : df_raw <> []).
  { intros ->. apply compute_period_targets_empty in Hrun. now subst. }
  rewrite compute_period_targets_some in Hrun by assumption.
  injection Hrun as <-. apply in_summary_rows_of in Hin.
  destruct Hin as (f & req & loc & _ & Hreq & _ & ->).
  unfold summary_row. cbn [Summary.periods_in_range Summary.target_total].
  pose proof (periods_of_at_least_one (interval req) start_date end_date
                (FORM_COMPLIANCE_intervals f req Hreq) Hs He Hle) as H1.
  pose proof (FORM_COMPLIANCE_quota_pos f req Hreq) as H2.
  split; [exact H1 | nia].
Qed.

Lemma ordered_dates_give_positive_targets_witness :
  valid_date (jan 1) /\ valid_date (jan 5)
  /\ toordinal (jan 1) <= toordinal (jan 5)
  /\ compute_period_targets raw_site_audit (jan 1) (jan 5) ["Site Audit"] []
     = Some [row_site_audit]
  /\ 1 <= Summary.periods_in_range row_site_audit
  /\ 0 < Summary.target_total row_site_audit.
Proof.
  assert (H1 : valid_date (jan 1)) by (unfold valid_date; cbn; lia).
  assert (H5 : valid_date (jan 5)) by (unfold valid_date; cbn; lia).
  assert (Hle : toordinal (jan 1) <= toordinal (jan 5)) by (vm_compute; discriminate).
  split; [exact H1|]. split; [exact H5|]. split; [exact Hle|].
  split; [reflexivity|].
  exact (ordered_dates_give_positive_targets raw_site_audit (jan 1) (jan 5)
           ["Site Audit"] [] [row_site_audit] row_site_audit H1 H5 Hle eq_refl
           (or_introl eq_refl)).
Defined.

(** ** Every submission is counted once *)

Lemma Zsum_app (l l' : list Z) : Zsum (l ++ l') = Zsum l + Zsum l'.
Proof. unfold Zsum. induction l as [|a l IH]; cbn; [reflexivity | rewrite IH; lia]. Qed.

Lemma Zsum_map_add {A} (g h : A -> Z) (l : list A) :
  Zsum (map (fun x => g x + h x) l) = Zsum (map g l) + Zsum (map h l).
Proof. unfold Zsum. induction l as [|a l IH]; cbn; [reflexivity | rewrite IH; lia]. Qed.

Lemma Zsum_flat_map_add {A B} (g h : A -> B -> Z) (F : list A) (L : list B) :
  Zsum (flat_map (fun f => map (fun l => g f l + h f l) L) F)
  = Zsum (flat_map (fun f => map (g f) L) F) + Zsum (flat_map (fun f => map (h f) L) F).
Proof.
  induction F as [|f F IH]; cbn [flat_map]; [reflexivity|].
  rewrite !Zsum_app, IH, Zsum_map_add. lia.
Qed.

Lemma Zsum_indicator (x : string) (L : list string) :
  NoDup L ->
  Zsum (map (fun l => if String.eqb x l then 1 else 0) L)
  = if existsb (String.eqb x) L then 1 else 0.
Proof.
  induction 1 as [|l L Hnin _ IH]; [reflexivity|].
  cbn [map existsb]. change (Zsum (?a :: ?t)) with (a + Zsum t). rewrite IH.
  destruct (String.eqb_spec x l) as [-> | _]; cbn [orb]; [|lia].
  destruct (existsb (String.eqb l) L) eqn:E; [|lia].
  exfalso. apply Hnin. now apply existsb_eqb_In.
Qed.

Lemma Zsum_zero {A} (L : list A) : Zsum (map (fun _ => 0) L) = 0.
Proof. unfold Zsum. induction L as [|a L IH]; cbn; [reflexivity | exact IH]. Qed.

(** The number of the pairs of a form of [F] and a location of [L] that a
    submission matches: one or none. *)
Lemma matches_once (F L : list string) (r : Raw.row) :
  NoDup F -> NoDup L ->
  Zsum (flat_map (fun f => map (fun l => if matches f l r then 1 else 0) L) F)
  = if existsb (String.eqb (Raw.form_name r)) F
       && match Raw.location r with
          | Some l => existsb (String.eqb l) L
          | None => false
          end
    then 1 else 0.
Proof.
  intros HF HL. unfold matches.
  induction HF as [|f F Hnin _ IH]; [reflexivity|].
  cbn [flat_map existsb]. rewrite Zsum_app, IH.
  destruct (String.eqb_spec (Raw.form_name r) f) as [E | NE]; cbn [orb andb].
  - assert (Hex : existsb (String.eqb (Raw.form_name r)) F = false).
    { destruct (existsb _ F) eqn:Ex; [|reflexivity].
      exfalso. apply Hnin. rewrite <- E. now apply existsb_eqb_In. }
    rewrite Hex. cbn [andb].
    destruct (Raw.location r) as [l|].
    + rewrite (Zsum_indicator l L HL). lia.
    + rewrite Zsum_zero. lia.
  - rewrite Zsum_zero. lia.
Qed.

Lemma summary_actual_totals (df_raw : list Raw.row) (start_date end_date : date)
    (selected_forms selected_locations : list string) :
  map Summary.actual_total
    (summary_rows_of df_raw start_date end_date selected_forms selected_locations)
  = flat_map
      (fun f => map (count_matching df_raw f)
                  (effective_locations df_raw selected_locations))
      (compliance_forms selected_forms).
Proof.
  unfold summary_rows_of, compliance_forms.
  induction selected_forms as [|f forms IH]; cbn [filter flat_map map]; [reflexivity|].
  destruct (FORM_COMPLIANCE_get f) as [req|] eqn:E; cbn [truthy]; [|exact IH].
  cbn [flat_map]. rewrite E, map_app, IH. f_equal.
  rewrite map_map. reflexivity.
Qed.

Lemma count_total (F L : list string) (df_raw : list Raw.row) :
  NoDup F -> NoDup L ->
  Zsum (flat_map (fun f => map (count_matching df_raw f) L) F)
  = Z.of_nat
      (List.length
         (filter
            (fun r =>
               existsb (String.eqb (Raw.form_name r)) F
               && match Raw.location r with
                  | Some l => existsb (String.eqb l) L
                  | None => false
                  end)
            df_raw)).
Proof.
  intros HF HL. induction df_raw as [|r df IH].
  - cbn [filter List.length]. unfold count_matching. cbn [filter List.length].
    clear HF. induction F as [|f F IHF]; [reflexivity|].
    cbn [flat_map]. rewrite Zsum_app, IHF, Zsum_zero. reflexivity.
  - rewrite (flat_map_ext _
               (fun f => map (fun l => (if matches f l r then 1 else 0)
                                       + count_matching df f l) L)).
    2:{ intro f. apply map_ext. intro l. unfold count_matching. cbn [filter].
        destruct (matches f l r); cbn [List.length]; lia. }
    rewrite Zsum_flat_map_add, (matches_once F L r HF HL).
    change (fun f => map (fun l => count_matching df f l) L)
      with (fun f => map (count_matching df f) L).
    rewrite IH. cbn [filter].
    destruct (existsb (String.eqb (Raw.form_name r)) F
              && match Raw.location r with
                 | Some l => existsb (String.eqb l) L
                 | None => false
                 end); cbn [List.length]; lia.
Qed.

(** X19: when no form and no location is selected twice, the
    [actual_total] of all rows add up to the number of submissions whose form
    is a selected form with a rule and whose location is one of the
    locations of the report: each of them is counted once, the others are
    not counted. *)
Theorem every_submission_counted_once (df_raw : list Raw.row)
    (start_date end_date : date) (selected_forms selected_locations : list string) :
  NoDup selected_forms -> NoDup selected_locations -> df_raw <> [] ->
  exists out,
    compute_period_targets df_raw start_date end_date selected_forms selected_locations
    = Some out
    /\ Zsum (map Summary.actual_total out)
       = Z.of_nat
           (List.length
              (filter
                 (fun r =>
                    existsb (String.eqb (Raw.form_name r))
                      (compliance_forms selected_forms)
                    && match Raw.location r with
                       | Some l =>
                           existsb (String.eqb l)
                             (effective_locations df_raw selected_locations)
                       | None => false
                       end)
                 df_raw))
    /\ Zsum (map Summary.actual_total out) <= Z.of_nat (List.length df_raw).
Proof.
  intros HF HL Hne. eexists. split; [now apply compute_period_targets_some|].
  rewrite summary_actual_totals.
  assert (HL' : NoDup (effective_locations df_raw selected_locations)).
  { unfold effective_locations. destruct selected_locations; [|exact HL].
    apply sorted_unique_NoDup. }
  assert (HF' : NoDup (compliance_forms selected_forms))
    by (now apply NoDup_filter).
  rewrite (count_total _ _ df_raw HF' HL').
  split; [reflexivity|].
  apply inj_le, filter_length_le.
Qed.

Lemma every_submission_counted_once_witness :
  NoDup ["Overnight Valet"; "Valet Driver Assessment"] /\ NoDup ["A"; "C"]
  /\ raw_three_locations <> []
  /\ exists out,
       compute_period_targets raw_three_locations (jan 1) (jan 5)
         ["Overnight Valet"; "Valet Driver Assessment"] ["A"; "C"] = Some out
       /\ Zsum (map Summary.actual_total out) = 9.
Proof.
  assert (HF : NoDup ["Overnight Valet"; "Valet Driver Assessment"]).
  { repeat constructor; cbn; intuition discriminate. }
  assert (HL : NoDup ["A"; "C"]).
  { repeat constructor; cbn; intuition discriminate. }
  assert (Hne : raw_three_locations <> []) by discriminate.
  split; [exact HF|]. split; [exact HL|]. split; [exact Hne|].
  destruct (every_submission_counted_once raw_three_locations (jan 1) (jan 5)
              ["Overnight Valet"; "Valet Driver Assessment"] ["A"; "C"] HF HL Hne)
    as (out & Hout & Hsum & _).
  exists out. split; [exact Hout|]. rewrite Hsum. reflexivity.
Defined.

(** ** Percentages and statuses *)

Lemma percent_of_nonneg (a t : Z) : 0 <= a -> 0 <= t -> (0 <= percent_of a t)%Q.
Proof.
  intros Ha Ht. unfold percent_of.
  destruct (Z.eqb_spec t 0) as [_ | NE]; [apply Qle_refl|].
  apply Qle_shift_div_l.
  - change 0%Q with (inject_Z 0). rewrite <- Zlt_Qlt. lia.
  - rewrite Qmult_0_l. change 0%Q with (inject_Z 0). rewrite <- Zle_Qle. lia.
Qed.

Lemma percent_of_met (a t : Z) : 0 < t -> t <= a -> (100 <= percent_of a t)%Q.
Proof.
  intros Ht Ha. unfold percent_of.
  destruct (Z.eqb_spec t 0) as [E | _]; [lia|].
  apply Qle_shift_div_l.
  - change 0%Q with (inject_Z 0). rewrite <- Zlt_Qlt. lia.
  - change 100%Q with (inject_Z 100). rewrite <- inject_Z_mult, <- Zle_Qle. lia.
Qed.

Lemma percent_of_missing (a t : Z) : 0 < t -> a <= t -> (percent_of a t <= 100)%Q.
Proof.
  intros Ht Ha. unfold percent_of.
  destruct (Z.eqb_spec t 0) as [E | _]; [lia|].
  apply Qle_shift_div_r.
  - change 0%Q with (inject_Z 0). rewrite <- Zlt_Qlt. lia.
  - change 100%Q with (inject_Z 100). rewrite <- inject_Z_mult, <- Zle_Qle. lia.
Qed.

(** X20: [percent_complete] is never negative; a row that is [Met] with a
    positive target shows at least 100, and a row that is not [Met] shows at
    most 100. *)
Theorem percent_complete_agrees_with_status (df_raw : list Raw.row)
    (start_date end_date : date) (selected_forms selected_locations : list string)
    (out : list Summary.row) (r : Summary.row) :
  compute_period_targets df_raw start_date end_date selected_forms selected_locations
  = Some out ->
  In r out ->
  (0 <= Summary.percent_complete r)%Q
  /\ (0 < Summary.target_total r -> Summary.status r = "Met" ->
      (100 <= Summary.percent_complete r)%Q)
  /\ (Summary.status r <> "Met" -> (Summary.percent_complete r <= 100)%Q).
Proof.
  intros Hrun Hin.
  assert (Hne : df_raw <> []).
  { intros ->. apply compute_period_targets_empty in Hrun. now subst. }
  rewrite compute_period_targets_some in Hrun by assumption.
  injection Hrun as <-. apply in_summary_rows_of in Hin.
  destruct Hin as (f & req & loc & _ & Hreq & _ & ->).
  unfold summary_row.
  cbn [Summary.status Summary.target_total Summary.percent_complete].
  pose proof (count_matching_bounds df_raw f loc) as [Ha _].
  pose proof (FORM_COMPLIANCE_quota_pos f req Hreq) as Hq.
  set (actual := count_matching df_raw f loc) in *.
  set (target := Z.of_nat _ * quota req).
  assert (Ht : 0 <= target) by (unfold target; nia).
  assert (H0 : (round1 0 == 0)%Q) by reflexivity.
  assert (H100 : (round1 100 == 100)%Q) by reflexivity.
  split; [|split].
  - rewrite <- H0. apply round1_le. now apply percent_of_nonneg.
  - intros Hpos Hmet. rewrite <- H100. apply round1_le, percent_of_met; [exact Hpos|].
    destruct (Z.geb_spec actual target); [lia | cbn in Hmet; discriminate Hmet].
  - intro Hnot. rewrite <- H100. apply round1_le, percent_of_missing.
    + destruct (Z.geb_spec actual target); [congruence | lia].
    + destruct (Z.geb_spec actual target); [congruence | lia].
Qed.

Lemma percent_complete_agrees_with_status_witness :
  compute_period_targets raw_three_locations (jan 1) (jan 5) ["Overnight Valet"] []
  = Some summary_three_locations
  /\ (0 <= 800 # 10)%Q /\ (800 # 10 <= 100)%Q.
Proof.
  split; [reflexivity|].
  assert (H := percent_complete_agrees_with_status raw_three_locations (jan 1) (jan 5)
                 ["Overnight Valet"] [] summary_three_locations
                 (Summary.mk "Overnight Valet" "C" "Daily" 5 1 5 4 (800 # 10) "Missing 1")
                 eq_refl (or_intror (or_intror (or_introl eq_refl)))).
  split; [exact (proj1 H)|].
  apply (proj2 (proj2 H)). discriminate.
Defined.

(** ** More on the ranker *)

Lemma filter_length_impl {A} (p q : A -> bool) (l : list A) :
  (forall x, In x l -> p x = true -> q x = true) ->
  (List.length (filter p l) <= List.length (filter q l))%nat.
Proof.
  induction l as [|a l IH]; intro H; cbn [filter]; [apply Nat.le_refl|].
  assert (IH' := IH (fun x Hx => H x (or_intror Hx))).
  destruct (p a) eqn:Ep.
  - rewrite (H a (or_introl eq_refl) Ep). cbn [List.length]. lia.
  - destruct (q a); cbn [List.length]; lia.
Qed.

Lemma filter_length_strict {A} (p q : A -> bool) (l : list A) (x : A) :
  (forall y, In y l -> p y = true -> q y = true) ->
  In x l -> p x = false -> q x = true ->
  (List.length (filter p l) < List.length (filter q l))%nat.
Proof.
  induction l as [|a l IH]; intros H Hin Hp Hq; [destruct Hin|].
  cbn [filter].
  pose proof (filter_length_impl p q l (fun y Hy => H y (or_intror Hy))) as Hle.
  destruct Hin as [-> | Hin].
  - rewrite Hp, Hq. cbn [List.length]. lia.
  - assert (IH' := IH (fun y Hy => H y (or_intror Hy)) Hin Hp Hq).
    destruct (p a) eqn:Ep.
    + rewrite (H a (or_introl eq_refl) Ep). cbn [List.length]. lia.
    + destruct (q a); cbn [List.length]; lia.
Qed.

Lemma min_rank_mono (vals : list Q) (v v' : Q) :
  (v' <= v)%Q -> min_rank vals v <= min_rank vals v'.
Proof.
  intro H. unfold min_rank, higher. apply inj_le, le_n_S, filter_length_impl.
  intros y _. unfold Qgeb. rewrite !negb_true_iff.
  destruct (Qle_bool y v') eqn:E; [|reflexivity].
  intro Hy. apply Qle_bool_iff in E.
  assert (Hyv : (y <= v)%Q) by (eapply Qle_trans; eassumption).
  apply Qle_bool_iff in Hyv. congruence.
Qed.

Lemma min_rank_strict (vals : list Q) (v v' : Q) :
  In v' vals -> (v < v')%Q -> min_rank vals v' < min_rank vals v.
Proof.
  intros Hin H. unfold min_rank, higher.
  apply inj_lt, (proj1 (Nat.succ_lt_mono _ _)), (filter_length_strict _ _ vals v').
  - intros y _. unfold Qgeb. rewrite !negb_true_iff.
    intro Hy. destruct (Qle_bool y v) eqn:E; [|reflexivity].
    apply Qle_bool_iff in E.
    assert (Hyv : (y <= v')%Q) by (apply Qlt_le_weak; eapply Qle_lt_trans; eassumption).
    apply Qle_bool_iff in Hyv. congruence.
  - exact Hin.
  - unfold Qgeb. apply negb_false_iff, Qle_bool_iff, Qle_refl.
  - unfold Qgeb. apply negb_true_iff.
    destruct (Qle_bool v' v) eqn:E; [|reflexivity].
    apply Qle_bool_iff in E. exfalso. exact (Qlt_not_le _ _ H E).
Qed.

Lemma StronglySorted_map {A B} (R : B -> B -> Prop) (f : A -> B) (l : list A) :
  StronglySorted (fun a b => R (f a) (f b)) l -> StronglySorted R (map f l).
Proof.
  induction 1 as [|a l _ IH Hall]; cbn [map]; constructor; [exact IH|].
  rewrite Forall_forall in *. intros y Hy.
  apply in_map_iff in Hy. destruct Hy as (x & <- & Hx). now apply Hall.
Qed.

Lemma sort_values_desc_sorted (leader : list Agg.row) :
  StronglySorted
    (fun a b => (Agg.overall_percent b <= Agg.overall_percent a)%Q)
    (sort_values_desc leader).
Proof.
  unfold sort_values_desc.
  pose proof (sort_by_StronglySorted
                (fun a b => Qgeb (Agg.overall_percent a) (Agg.overall_percent b))
                (fun a b => Qgeb_total _ _)
                (fun a b c => Qgeb_trans _ _ _) leader) as H.
  induction H as [|a l _ IH Hall]; constructor; [exact IH|].
  rewrite Forall_forall in *. intros y Hy.
  apply Qle_bool_iff. exact (Hall y Hy).
Qed.

(** X21: the rows of the leaderboard come by decreasing [overall_percent],
    so their ranks never decrease from one row to the next, and the first
    row has rank 1. *)
Theorem leaderboard_sorted_by_percent (compliance_summary : list Summary.row) :
  StronglySorted (fun a b => (b <= a)%Q)
    (map Leader.overall_percent (rows (leaderboard_with_badges compliance_summary)))
  /\ StronglySorted Z.le
       (map Leader.Rank (rows (leaderboard_with_badges compliance_summary)))
  /\ (forall r rest,
        rows (leaderboard_with_badges compliance_summary) = r :: rest ->
        Leader.Rank r = 1).
Proof.
  pose proof (rank_is_min_rank compliance_summary) as HR.
  pose proof (sort_values_desc_sorted (groupby_agg compliance_summary)) as Hs.
  apply (StronglySorted_map (fun a b => (b <= a)%Q) Agg.overall_percent) in Hs.
  rewrite <- (ranked_row_overall
                (map Agg.overall_percent
                   (sort_values_desc (groupby_agg compliance_summary)))) in Hs.
  rewrite <- leaderboard_rows in Hs.
  set (out := rows (leaderboard_with_badges compliance_summary)) in *.
  split; [exact Hs|].
  assert (Hranks :
            forall l, incl l out ->
              StronglySorted (fun a b => (b <= a)%Q) (map Leader.overall_percent l) ->
              StronglySorted Z.le (map Leader.Rank l)).
  { induction l as [|a l IH]; intros Hincl Hl; cbn [map]; constructor.
    - apply IH; [intros x Hx; apply Hincl; now right | now inversion Hl].
    - inversion Hl as [|? ? _ Hall]; subst. rewrite Forall_forall in *.
      intros y Hy. apply in_map_iff in Hy. destruct Hy as (b & <- & Hb).
      rewrite (HR a) by (apply Hincl; now left).
      rewrite (HR b) by (apply Hincl; now right).
      apply min_rank_mono. apply Hall. now apply in_map. }
  split; [apply Hranks; [apply incl_refl | exact Hs]|].
  intros r rest E. rewrite (HR r) by (rewrite E; now left).
  rewrite E in Hs. cbn [map] in Hs. inversion Hs as [|? ? _ Hall]; subst.
  unfold min_rank, higher. rewrite E. cbn [map filter].
  assert (Hself : Qgeb (Leader.overall_percent r) (Leader.overall_percent r) = true)
    by (apply Qle_bool_iff, Qle_refl).
  rewrite Hself. cbn [negb].
  rewrite filter_none; [reflexivity|].
  rewrite Forall_forall in Hall. intros y Hy.
  apply negb_false_iff, Qle_bool_iff. now apply Hall.
Qed.

Lemma leaderboard_sorted_by_percent_witness :
  rows (leaderboard_with_badges summary_three_locations)
  = Leader.mk "A" 1 5 5 (1000 # 10) Gold_Star 1
    :: [Leader.mk "B" 1 5 5 (1000 # 10) Gold_Star 1;
        Leader.mk "C" 1 5 4 (800 # 10) Bronze_Star 3]
  /\ Leader.Rank (Leader.mk "A" 1 5 5 (1000 # 10) Gold_Star 1) = 1.
Proof.
  split; [reflexivity|].
  exact (proj2 (proj2 (leaderboard_sorted_by_percent summary_three_locations))
           _ _ eq_refl).
Defined.

Lemma leaderboard_locations (compliance_summary : list Summary.row) :
  Permutation
    (map Leader.location (rows (leaderboard_with_badges compliance_summary)))
    (unique (map Summary.location compliance_summary)).
Proof.
  rewrite leaderboard_rows, map_map.
  change (fun x => Leader.location (ranked_row _ x)) with Agg.location.
  unfold sort_values_desc.
  eapply perm_trans; [apply Permutation_map, sort_by_perm|].
  rewrite groupby_agg_rows, map_map. cbn [agg_row finalize Agg.location fst].
  rewrite map_id. apply sort_by_perm.
Qed.

(** X22: the leaderboard has one row for each distinct location of the
    summary: its locations are those of the summary, each once. *)
Theorem leaderboard_one_row_per_location (compliance_summary : list Summary.row) :
  NoDup (map Leader.location (rows (leaderboard_with_badges compliance_summary)))
  /\ (forall loc,
        In loc (map Leader.location (rows (leaderboard_with_badges compliance_summary)))
        <-> In loc (map Summary.location compliance_summary))
  /\ List.length (rows (leaderboard_with_badges compliance_summary))
     = List.length (unique (map Summary.location compliance_summary)).
Proof.
  pose proof (leaderboard_locations compliance_summary) as HP.
  split; [|split].
  - apply (Permutation_NoDup (Permutation_sym HP)), unique_from_NoDup.
  - intro loc. split; intro H.
    + apply (Permutation_in _ HP) in H. unfold unique in H.
      apply unique_from_In in H. tauto.
    + apply (Permutation_in _ (Permutation_sym HP)). unfold unique.
      apply unique_from_In. cbn [In]. tauto.
  - rewrite <- (length_map Leader.location). now apply Permutation_length.
Qed.

Lemma Zsum_perm (l l' : list Z) : Permutation l l' -> Zsum l = Zsum l'.
Proof.
  unfold Zsum. induction 1; cbn; lia.
Qed.

Lemma Zsum_pick (x : string) (v : Z) (K : list string) :
  NoDup K -> In x K ->
  Zsum (map (fun k => if String.eqb x k then v else 0) K) = v.
Proof.
  induction 1 as [|k K Hnin _ IH]; intro Hin; [destruct Hin|].
  cbn [map]. change (Zsum (?a :: ?t)) with (a + Zsum t).
  destruct (String.eqb_spec x k) as [-> | NE].
  - rewrite (map_ext_in _ (fun _ => 0)); [rewrite Zsum_zero; lia|].
    intros k' Hk'. destruct (String.eqb_spec k k') as [-> | _]; [contradiction | reflexivity].
  - destruct Hin as [-> | Hin]; [congruence|]. rewrite (IH Hin). lia.
Qed.

(** The sums of the groups add up to the sum of the rows. *)
Lemma group_sums (g : Summary.row -> Z) (K : list string)
    (compliance_summary : list Summary.row) :
  NoDup K ->
  (forall x, In x compliance_summary -> In (Summary.location x) K) ->
  Zsum (map (fun k => Zsum (map g (group_of compliance_summary k))) K)
  = Zsum (map g compliance_summary).
Proof.
  intros HK. induction compliance_summary as [|x cs IH]; intro Hin.
  - cbn [group_of filter map]. apply Zsum_zero.
  - rewrite (map_ext _
               (fun k => (if String.eqb (Summary.location x) k then g x else 0)
                         + Zsum (map g (group_of cs k)))).
    2:{ intro k. unfold group_of. cbn [filter].
        destruct (String.eqb (Summary.location x) k); cbn [map]; [reflexivity | lia]. }
    rewrite Zsum_map_add, IH by (intros; apply Hin; now right).
    rewrite Zsum_pick; [reflexivity | exact HK | apply Hin; now left].
Qed.

Lemma Zsum_ones {A} (l : list A) : Zsum (map (fun _ => 1) l) = Z.of_nat (List.length l).
Proof. unfold Zsum. induction l as [|a l IH]; cbn [map fold_right List.length]; lia. Qed.

(** X23: the leaderboard loses nothing: its [total_target], [total_actual]
    and [forms_tracked] add up to the sums of [target_total] and
    [actual_total] and to the number of rows of the summary. *)
Theorem leaderboard_totals_conserved (compliance_summary : list Summary.row) :
  Zsum (map Leader.total_target (rows (leaderboard_with_badges compliance_summary)))
  = Zsum (map Summary.target_total compliance_summary)
  /\ Zsum (map Leader.total_actual (rows (leaderboard_with_badges compliance_summary)))
     = Zsum (map Summary.actual_total compliance_summary)
  /\ Zsum (map Leader.forms_tracked (rows (leaderboard_with_badges compliance_summary)))
     = Z.of_nat (List.length compliance_summary).
Proof.
  set (K := sorted (unique (map Summary.location compliance_summary))).
  assert (HK : NoDup K) by apply sorted_unique_NoDup.
  assert (Hin : forall x, In x compliance_summary -> In (Summary.location x) K).
  { intros x Hx. apply sorted_unique_In. now apply in_map. }
  assert (Hfield :
    forall (p : Leader.row -> Z) (q : Agg.row -> Z) (g : Summary.row -> Z),
      (forall vals a, p (ranked_row vals a) = q a) ->
      (forall k, q (agg_row k (group_of compliance_summary k))
                 = Zsum (map g (group_of compliance_summary k))) ->
      Zsum (map p (rows (leaderboard_with_badges compliance_summary)))
      = Zsum (map g compliance_summary)).
  { intros p q g Hp Hq. rewrite leaderboard_rows, map_map.
    rewrite (map_ext _ q) by (intro; apply Hp).
    unfold sort_values_desc.
    rewrite (Zsum_perm _ _ (Permutation_map q (sort_by_perm _ _))).
    rewrite groupby_agg_rows, map_map. fold K.
    rewrite (map_ext _ _ Hq). now apply group_sums. }
  split; [|split].
  - apply (Hfield _ Agg.total_target); [reflexivity|].
    intro k. unfold agg_row, finalize. cbn [Agg.total_target snd].
    destruct (fold_acc_add (group_of compliance_summary k) acc0) as (_ & H & _).
    rewrite H. reflexivity.
  - apply (Hfield _ Agg.total_actual); [reflexivity|].
    intro k. unfold agg_row, finalize. cbn [Agg.total_actual snd].
    destruct (fold_acc_add (group_of compliance_summary k) acc0) as (_ & _ & H & _).
    rewrite H. reflexivity.
  - rewrite <- Zsum_ones.
    apply (Hfield _ Agg.forms_tracked); [reflexivity|].
    intro k. unfold agg_row, finalize. cbn [Agg.forms_tracked snd].
    destruct (fold_acc_add (group_of compliance_summary k) acc0) as (H & _).
    rewrite H, Zsum_ones. reflexivity.
Qed.

(** X24: every rank lies between 1 and the number of rows of the
    leaderboard. *)
Theorem rank_between_one_and_rows (compliance_summary : list Summary.row)
    (r : Leader.row) :
  In r (rows (leaderboard_with_badges compliance_summary)) ->
  1 <= Leader.Rank r
       <= Z.of_nat (List.length (rows (leaderboard_with_badges compliance_summary))).
Proof.
  intro Hin. rewrite (rank_is_min_rank _ _ Hin). unfold min_rank, higher.
  set (vals := map Leader.overall_percent
                 (rows (leaderboard_with_badges compliance_summary))).
  assert (Hlt : (List.length
                   (filter (fun y => negb (Qgeb (Leader.overall_percent r) y)) vals)
                 < List.length (filter (fun _ => true) vals))%nat).
  { apply (filter_length_strict _ _ vals (Leader.overall_percent r)).
    - reflexivity.
    - now apply in_map.
    - unfold Qgeb. apply negb_false_iff, Qle_bool_iff, Qle_refl.
    - reflexivity. }
  pose proof (filter_length_le (fun _ : Q => true) vals) as Hle.
  unfold vals in Hle at 2. rewrite length_map in Hle. lia.
Qed.

Lemma rank_between_one_and_rows_witness :
  In (Leader.mk "C" 1 5 4 (800 # 10) Bronze_Star 3)
     (rows (leaderboard_with_badges summary_three_locations))
  /\ 1 <= 3 <= Z.of_nat (List.length
                           (rows (leaderboard_with_badges summary_three_locations))).
Proof.
  split; [do 2 right; left; reflexivity|].
  apply (rank_between_one_and_rows summary_three_locations
           (Leader.mk "C" 1 5 4 (800 # 10) Bronze_Star 3)).
  do 2 right; left; reflexivity.
Defined.

Lemma leaderboard_badge (compliance_summary : list Summary.row) (r : Leader.row) :
  In r (rows (leaderboard_with_badges compliance_summary)) ->
  exists a, Leader.Badge r = badge_row a
            /\ Agg.overall_percent a = Leader.overall_percent r.
Proof.
  rewrite leaderboard_rows. intro Hin.
  apply in_map_iff in Hin. destruct Hin as (a & <- & _).
  exists a. split; reflexivity.
Qed.

Lemma badge_row_mono (a a' : Agg.row) :
  (Agg.overall_percent a' <= Agg.overall_percent a)%Q ->
  badge_level (badge_row a') <= badge_level (badge_row a).
Proof.
  intro H. unfold badge_row.
  assert (Hstep : forall c, Qle_bool c (Agg.overall_percent a') = true ->
                            Qle_bool c (Agg.overall_percent a) = true).
  { intros c Hc. apply Qle_bool_iff in Hc. apply Qle_bool_iff.
    eapply Qle_trans; eassumption. }
  destruct (Qle_bool 100 (Agg.overall_percent a')) eqn:E1;
    destruct (Qle_bool 90 (Agg.overall_percent a')) eqn:E2;
    destruct (Qle_bool 75 (Agg.overall_percent a')) eqn:E3;
    destruct (Qle_bool 100 (Agg.overall_percent a)) eqn:F1;
    destruct (Qle_bool 90 (Agg.overall_percent a)) eqn:F2;
    destruct (Qle_bool 75 (Agg.overall_percent a)) eqn:F3;
    unfold badge_level; try lia;
    try (rewrite (Hstep _ E1) in F1; discriminate);
    try (rewrite (Hstep _ E2) in F2; discriminate);
    try (rewrite (Hstep _ E3) in F3; discriminate).
Qed.

(** X25: rank and badge agree with the percentages: of two rows, the one
    with the rank that is not larger has the percentage that is not smaller
    and a badge at least as high. *)
Theorem better_rank_never_lower_badge (compliance_summary : list Summary.row)
    (r r' : Leader.row) :
  In r (rows (leaderboard_with_badges compliance_summary)) ->
  In r' (rows (leaderboard_with_badges compliance_summary)) ->
  Leader.Rank r <= Leader.Rank r' ->
  (Leader.overall_percent r' <= Leader.overall_percent r)%Q
  /\ badge_level (Leader.Badge r') <= badge_level (Leader.Badge r).
Proof.
  intros Hin Hin' Hrank.
  assert (Hle : (Leader.overall_percent r' <= Leader.overall_percent r)%Q).
  { destruct (Qlt_le_dec (Leader.overall_percent r) (Leader.overall_percent r'))
      as [Hlt | Hle]; [|exact Hle].
    exfalso. rewrite (rank_is_min_rank _ _ Hin), (rank_is_min_rank _ _ Hin') in Hrank.
    pose proof (min_rank_strict
                  (map Leader.overall_percent
                     (rows (leaderboard_with_badges compliance_summary)))
                  _ _ (in_map Leader.overall_percent _ _ Hin') Hlt).
    lia. }
  split; [exact Hle|].
  destruct (leaderboard_badge _ _ Hin) as (a & -> & Ea).
  destruct (leaderboard_badge _ _ Hin') as (a' & -> & Ea').
  apply badge_row_mono. now rewrite Ea, Ea'.
Qed.

Lemma better_rank_never_lower_badge_witness :
  In (Leader.mk "A" 1 5 5 (1000 # 10) Gold_Star 1)
     (rows (leaderboard_with_badges summary_three_locations))
  /\ In (Leader.mk "C" 1 5 4 (800 # 10) Bronze_Star 3)
        (rows (leaderboard_with_badges summary_three_locations))
  /\ 1 <= 3
  /\ (800 # 10 <= 1000 # 10)%Q
  /\ badge_level Bronze_Star <= badge_level Gold_Star.
Proof.
  assert (HA : In (Leader.mk "A" 1 5 5 (1000 # 10) Gold_Star 1)
                  (rows (leaderboard_with_badges summary_three_locations)))
    by (left; reflexivity).
  assert (HC : In (Leader.mk "C" 1 5 4 (800 # 10) Bronze_Star 3)
                  (rows (leaderboard_with_badges summary_three_locations)))
    by (do 2 right; left; reflexivity).
  assert (H13 : 1 <= 3) by lia.
  split; [exact HA|]. split; [exact HC|]. split; [exact H13|].
  exact (better_rank_never_lower_badge summary_three_locations _ _ HA HC H13).
Defined.
